(** * Red Light, Green Light: the [SquidGameNode] controller

    A shallow embedding of
    [robot_control_architecture_pkg/robot_control_architecture_node.py]
    and the properties of its phase machine, light scheduler and detection
    tracker.

    Modelling conventions.
    - The node object is a record [Node] holding the attributes that
      [__init__] and the methods assign.  [game_result] is not created by
      [__init__]; an absent attribute is [None] and reading it raises
      [AttributeError].
    - Every method is a computation in the monad [M]: it threads the node and
      the ordered list of observable effects (log lines, speech, sound,
      publications, velocity commands), and either finishes or raises a Python
      exception.  Mutations made before an exception are kept, as in Python.
    - Numbers.  The phase machine and the light scheduler take Python floats
      (seconds, speeds, thresholds, box coordinates) as exact rationals [Q]
      and [rclpy] times as integer nanoseconds [Z]: values are finite and
      rounding is not modelled there.  So [init_node] holds 4/5 and 6/5 where
      the program holds the doubles nearest to 0.8 and 1.2, [duration_ns]
      truncates an exact product where [Duration] truncates a rounded one (the
      results can differ by one nanosecond), and [elapsed_time] is the exact
      quotient of which the program stores the nearest double.
    - The detection tracker is given a second time in module [Double], over
      binary64 floats with the IEEE subtraction, absolute value and
      comparisons, infinities and NaN included.  Which deltas count as
      movement, and what comparing a detection with itself gives (C2, C8), is
      proved there; the tracker over [Q] serves the statements on the course
      of the game.
    - [speak_text] is taken on the run where [espeak] is launched; the handler
      that logs a TTS error when [subprocess.run] raises is left out.
    - What the environment decides during one timer tick (clock readings,
      [random.choice], [random.random], how long the rotation loop spins) is
      the record [Env] carried by the tick event. *)

From Stdlib Require Import ZArith QArith Qabs Qround String List Bool Lia.
From Stdlib Require Floats.
Import ListNotations.

Local Open Scope string_scope.
Local Open Scope Q_scope.

(** ** Messages ([vision_msgs]) *)

Module Msg.

Record Point2D := { x : Q; y : Q }.
Record Pose2D := { position : Point2D; theta : Q }.
Record BoundingBox2D := { center : Pose2D; size_x : Q; size_y : Q }.
Record ObjectHypothesis := { class_id : string; score : Q }.
Record ObjectHypothesisWithPose := { hypothesis : ObjectHypothesis }.
Record Detection2D :=
  { results : list ObjectHypothesisWithPose; bbox : BoundingBox2D }.
Record Detection2DArray := { detections : list Detection2D }.

End Msg.
Import Msg.

(** ** Numeric helpers *)

(** [a < b] on floats, as a boolean. *)
Definition Qlt_bool (a b : Q) : bool :=
  (Qnum a * QDen b <? Qnum b * QDen a)%Z.

(** [rclpy.duration.Duration(seconds=s)]: [int(s * 1e9)] nanoseconds, [int]
    truncating towards zero.  The product is exact here and a rounded double
    in the program. *)
Definition duration_ns (s : Q) : Z :=
  let ns := s * 1000000000 in
  if Qle_bool 0 ns then Qfloor ns else Qceiling ns.

(** [(now - start).nanoseconds / 1e9]. *)
Definition seconds_between (now start : Z) : Q :=
  inject_Z (now - start) / 1000000000.

(** ** The node object *)

Record Node := mkNode {
  state : string;
  time_limit : Q;
  elapsed_time : Q;
  game_start_time : option Z;
  current_light_duration : Q;
  light_end_time : option Z;
  movement_threshold : Q;
  size_y_finish_line : Q;
  player_reached_finish_line : bool;
  player_moved : bool;
  rotation_speed : Q;
  previous_detection : option Detection2D;
  current_detection : option Detection2D;
  random_interval_min : Q;
  random_interval_max : Q;
  game_result : option string;
  timer_cancelled : bool
}.

(** Attribute assignments [self.f = v]. *)

Definition with_state (v : string) (n : Node) : Node :=
  mkNode v (time_limit n) (elapsed_time n) (game_start_time n)
    (current_light_duration n) (light_end_time n) (movement_threshold n)
    (size_y_finish_line n) (player_reached_finish_line n) (player_moved n)
    (rotation_speed n) (previous_detection n) (current_detection n)
    (random_interval_min n) (random_interval_max n) (game_result n)
    (timer_cancelled n).

Definition with_elapsed_time (v : Q) (n : Node) : Node :=
  mkNode (state n) (time_limit n) v (game_start_time n)
    (current_light_duration n) (light_end_time n) (movement_threshold n)
    (size_y_finish_line n) (player_reached_finish_line n) (player_moved n)
    (rotation_speed n) (previous_detection n) (current_detection n)
    (random_interval_min n) (random_interval_max n) (game_result n)
    (timer_cancelled n).

Definition with_game_start_time (v : option Z) (n : Node) : Node :=
  mkNode (state n) (time_limit n) (elapsed_time n) v
    (current_light_duration n) (light_end_time n) (movement_threshold n)
    (size_y_finish_line n) (player_reached_finish_line n) (player_moved n)
    (rotation_speed n) (previous_detection n) (current_detection n)
    (random_interval_min n) (random_interval_max n) (game_result n)
    (timer_cancelled n).

Definition with_current_light_duration (v : Q) (n : Node) : Node :=
  mkNode (state n) (time_limit n) (elapsed_time n) (game_start_time n)
    v (light_end_time n) (movement_threshold n)
    (size_y_finish_line n) (player_reached_finish_line n) (player_moved n)
    (rotation_speed n) (previous_detection n) (current_detection n)
    (random_interval_min n) (random_interval_max n) (game_result n)
    (timer_cancelled n).

Definition with_light_end_time (v : option Z) (n : Node) : Node :=
  mkNode (state n) (time_limit n) (elapsed_time n) (game_start_time n)
    (current_light_duration n) v (movement_threshold n)
    (size_y_finish_line n) (player_reached_finish_line n) (player_moved n)
    (rotation_speed n) (previous_detection n) (current_detection n)
    (random_interval_min n) (random_interval_max n) (game_result n)
    (timer_cancelled n).

Definition with_player_reached_finish_line (v : bool) (n : Node) : Node :=
  mkNode (state n) (time_limit n) (elapsed_time n) (game_start_time n)
    (current_light_duration n) (light_end_time n) (movement_threshold n)
    (size_y_finish_line n) v (player_moved n)
    (rotation_speed n) (previous_detection n) (current_detection n)
    (random_interval_min n) (random_interval_max n) (game_result n)
    (timer_cancelled n).

Definition with_player_moved (v : bool) (n : Node) : Node :=
  mkNode (state n) (time_limit n) (elapsed_time n) (game_start_time n)
    (current_light_duration n) (light_end_time n) (movement_threshold n)
    (size_y_finish_line n) (player_reached_finish_line n) v
    (rotation_speed n) (previous_detection n) (current_detection n)
    (random_interval_min n) (random_interval_max n) (game_result n)
    (timer_cancelled n).

Definition with_previous_detection (v : option Detection2D) (n : Node) : Node :=
  mkNode (state n) (time_limit n) (elapsed_time n) (game_start_time n)
    (current_light_duration n) (light_end_time n) (movement_threshold n)
    (size_y_finish_line n) (player_reached_finish_line n) (player_moved n)
    (rotation_speed n) v (current_detection n)
    (random_interval_min n) (random_interval_max n) (game_result n)
    (timer_cancelled n).

Definition with_current_detection (v : option Detection2D) (n : Node) : Node :=
  mkNode (state n) (time_limit n) (elapsed_time n) (game_start_time n)
    (current_light_duration n) (light_end_time n) (movement_threshold n)
    (size_y_finish_line n) (player_reached_finish_line n) (player_moved n)
    (rotation_speed n) (previous_detection n) v
    (random_interval_min n) (random_interval_max n) (game_result n)
    (timer_cancelled n).

Definition with_game_result (v : option string) (n : Node) : Node :=
  mkNode (state n) (time_limit n) (elapsed_time n) (game_start_time n)
    (current_light_duration n) (light_end_time n) (movement_threshold n)
    (size_y_finish_line n) (player_reached_finish_line n) (player_moved n)
    (rotation_speed n) (previous_detection n) (current_detection n)
    (random_interval_min n) (random_interval_max n) v
    (timer_cancelled n).

Definition with_timer_cancelled (v : bool) (n : Node) : Node :=
  mkNode (state n) (time_limit n) (elapsed_time n) (game_start_time n)
    (current_light_duration n) (light_end_time n) (movement_threshold n)
    (size_y_finish_line n) (player_reached_finish_line n) (player_moved n)
    (rotation_speed n) (previous_detection n) (current_detection n)
    (random_interval_min n) (random_interval_max n) (game_result n)
    v.

(** ** Observable effects *)

(** The lines the node writes to its logger, one constructor per call site,
    carrying the values its f-string interpolates. *)
Inductive LogLine :=
| InfoNodeInitialized
| ErrorUnknownState (s : string)
| InfoInstructionsCompleted
| InfoCountdownCompleted
| InfoGameStarting
| InfoGreenLightFor (seconds : Q)
| InfoRedLightFor (seconds : Q)
| InfoTimeLimitReached
| InfoReachedFinishLine
| InfoMovedDuringRed
| InfoRotationCompleted
| InfoGameOverWins
| InfoGameOverLoses
| InfoMovementDetected (delta_x delta_y delta_size_x delta_size_y : Q).

Inductive Effect :=
| Log (l : LogLine)
| Speak (text : string)          (* espeak, failures caught inside speak_text *)
| Sleep (seconds : Q)            (* time.sleep *)
| System (cmd : string)          (* os.system *)
| PublishState (data : string)   (* state_pub.publish *)
| PublishVel (angular_z : Q)     (* vel_pub.publish *)
| TimerCancel.                   (* timer.cancel *)

(** ** The method monad *)

Inductive Exn :=
| AttributeError (attr : string)
| TypeError (operand : string)
| ZeroDivisionError.

Inductive Outcome (A : Type) :=
| Done (a : A)
| Raise (e : Exn).
Arguments Done {A} a.
Arguments Raise {A} e.

Record Sys := mkSys { self : Node; out : list Effect }.

Definition M (A : Type) : Type := Sys -> Outcome A * Sys.

Definition ret {A} (a : A) : M A := fun s => (Done a, s).

Definition bind {A B} (m : M A) (k : A -> M B) : M B :=
  fun s =>
    match m s with
    | (Done a, s') => k a s'
    | (Raise e, s') => (Raise e, s')
    end.

Definition raise {A} (e : Exn) : M A := fun s => (Raise e, s).

Definition gets {A} (f : Node -> A) : M A := fun s => (Done (f (self s)), s).

Definition assign (upd : Node -> Node) : M unit :=
  fun s => (Done tt, mkSys (upd (self s)) (out s)).

Definition emit (e : Effect) : M unit :=
  fun s => (Done tt, mkSys (self s) (out s ++ [e])).

Definition when (b : bool) (m : M unit) : M unit := if b then m else ret tt.

Declare Scope method_scope.
Delimit Scope method_scope with method.
Notation "x <- m ;; k" := (bind m (fun x => k))
  (at level 61, m at next level, right associativity) : method_scope.
Notation "m ;; k" := (bind m (fun _ => k))
  (at level 61, right associativity) : method_scope.
Local Open Scope method_scope.

(** Run [body] [n] times in a row (a [for] over a fixed range, or a loop whose
    trip count the environment decides). *)
Fixpoint repeat_m (n : nat) (body : M unit) : M unit :=
  match n with
  | O => ret tt
  | S n' => body ;; repeat_m n' body
  end.

(** Run [body] on each element of a list, in order. *)
Fixpoint for_each {A} (l : list A) (body : A -> M unit) : M unit :=
  match l with
  | [] => ret tt
  | a :: l' => body a ;; for_each l' body
  end.

(** ** What the environment decides during one tick *)

Record Env := mkEnv {
  clock_now : Z;     (* first [get_clock().now()] of the handler *)
  clock_light : Z;   (* [get_clock().now()] read by start_green/red_light *)
  coin : bool;       (* random.choice([True, False]) *)
  rand : Q;          (* random.random() behind random.uniform *)
  spins : nat        (* iterations of the rotation loop before its deadline *)
}.

(** [random.uniform(a, b)] is [a + (b - a) * random()]. *)
Definition random_uniform (e : Env) (a b : Q) : Q := a + (b - a) * rand e.

(** ** Methods of [SquidGameNode] *)

Definition GREEN_LIGHT := "GREEN_LIGHT".
Definition RED_LIGHT := "RED_LIGHT".
Definition GAME_OVER := "GAME_OVER".
Definition WIN := "WIN".
Definition LOSE := "LOSE".

Definition init_node : Node :=
  {| state := "INSTRUCTIONS";
     time_limit := 120;
     elapsed_time := 0;
     game_start_time := None;
     current_light_duration := 0;
     light_end_time := None;
     movement_threshold := 10;
     size_y_finish_line := 400;
     player_reached_finish_line := false;
     player_moved := false;
     rotation_speed := 1;
     previous_detection := None;
     current_detection := None;
     random_interval_min := 0.8;
     random_interval_max := 1.2;
     game_result := None;
     timer_cancelled := false |}.

(** The system once [__init__] has returned. *)
Definition init_sys : Sys := mkSys init_node [Log InfoNodeInitialized].

Definition speak_text (text : string) : M unit := emit (Speak text).

Definition publish_state (st : string) : M unit := emit (PublishState st).

(** [rotation_duration = math.pi / self.rotation_speed] divides by zero when
    the speed is [0.0]; the [while] loop then publishes and sleeps until the
    wall clock passes [start_time + rotation_duration], [spins e] times. *)
Definition perform_180_rotation (e : Env) : M unit :=
  speed <- gets rotation_speed ;;
  (if Qeq_bool speed 0 then raise ZeroDivisionError else ret tt) ;;
  repeat_m (spins e)
    (speed <- gets rotation_speed ;;
     emit (PublishVel speed) ;;
     emit (Sleep 0.1)) ;;
  emit (PublishVel 0) ;;
  emit (Log InfoRotationCompleted).

Definition instructions : list string :=
  [ "Welcome to Red Light Green Light.";
    "The rules are simple.";
    "When you hear Green Light, you can move forward.";
    "When you hear Red Light, you must freeze.";
    "If you move during Red Light, you will be eliminated.";
    "Reach the finish line to win.";
    "You have 2 minutes to complete the game.";
    "Get ready!" ].

Definition instructions_state (e : Env) : M unit :=
  for_each instructions
    (fun instruction => speak_text instruction ;; emit (Sleep 0.5)) ;;
  perform_180_rotation e ;;
  assign (with_state "COUNTDOWN") ;;
  emit (Log InfoInstructionsCompleted).

Definition countdown_state : M unit :=
  for_each ["3"; "2"; "1"]
    (fun count => speak_text count ;; emit (Sleep 1)) ;;
  speak_text "Begin!" ;;
  assign (with_state "INIT") ;;
  emit (Log InfoCountdownCompleted).

Definition start_green_light (e : Env) : M unit :=
  assign (with_state GREEN_LIGHT) ;;
  lo <- gets random_interval_min ;;
  hi <- gets random_interval_max ;;
  assign (with_current_light_duration (random_uniform e lo hi)) ;;
  seconds <- gets current_light_duration ;;
  assign (with_light_end_time (Some (clock_light e + duration_ns seconds)%Z)) ;;
  emit (System "mpg123 green_light.mp3") ;;
  seconds <- gets current_light_duration ;;
  emit (Log (InfoGreenLightFor seconds)) ;;
  publish_state GREEN_LIGHT.

Definition start_red_light (e : Env) : M unit :=
  assign (with_state RED_LIGHT) ;;
  lo <- gets random_interval_min ;;
  hi <- gets random_interval_max ;;
  assign (with_current_light_duration (random_uniform e lo hi)) ;;
  seconds <- gets current_light_duration ;;
  assign (with_light_end_time (Some (clock_light e + duration_ns seconds)%Z)) ;;
  emit (System "mpg123 red_light.mp3") ;;
  seconds <- gets current_light_duration ;;
  emit (Log (InfoRedLightFor seconds)) ;;
  assign (with_previous_detection None) ;;
  assign (with_player_moved false) ;;
  publish_state RED_LIGHT.

Definition start_random_light (e : Env) : M unit :=
  st <- gets state ;;
  if (st =? GREEN_LIGHT)%string then
    start_red_light e
  else if (st =? RED_LIGHT)%string then
    (if coin e then start_green_light e else start_red_light e)
  else
    (if coin e then start_green_light e else start_red_light e).

Definition init_state (e : Env) : M unit :=
  emit (Log InfoGameStarting) ;;
  assign (with_game_start_time (Some (clock_now e))) ;;
  assign (with_elapsed_time 0) ;;
  start_random_light e.

(** [self.elapsed_time = (now - self.game_start_time).nanoseconds / 1e9];
    subtracting [None] from a [Time] is a [TypeError]. *)
Definition update_elapsed_time (now : Z) : M unit :=
  start <- gets game_start_time ;;
  match start with
  | None => raise (TypeError "game_start_time")
  | Some t0 => assign (with_elapsed_time (seconds_between now t0))
  end.

(** [if now >= self.light_end_time: self.start_random_light()]. *)
Definition check_light_deadline (now : Z) (e : Env) : M unit :=
  deadline <- gets light_end_time ;;
  match deadline with
  | None => raise (TypeError "light_end_time")
  | Some t_end => when (t_end <=? now)%Z (start_random_light e)
  end.

Definition green_light_state (e : Env) : M unit :=
  let now := clock_now e in
  update_elapsed_time now ;;
  elapsed <- gets elapsed_time ;;
  limit <- gets time_limit ;;
  if Qle_bool limit elapsed then
    speak_text "Time's up! Game Over!" ;;
    emit (Log InfoTimeLimitReached) ;;
    assign (with_state GAME_OVER) ;;
    assign (with_game_result (Some LOSE))
  else
    reached <- gets player_reached_finish_line ;;
    if reached then
      speak_text "Congratulations! You've won!" ;;
      emit (Log InfoReachedFinishLine) ;;
      assign (with_state GAME_OVER) ;;
      assign (with_game_result (Some WIN))
    else
      check_light_deadline now e.

Definition red_light_state (e : Env) : M unit :=
  let now := clock_now e in
  update_elapsed_time now ;;
  elapsed <- gets elapsed_time ;;
  limit <- gets time_limit ;;
  if Qle_bool limit elapsed then
    speak_text "Time's up! Game Over!" ;;
    emit (Log InfoTimeLimitReached) ;;
    assign (with_state GAME_OVER) ;;
    assign (with_game_result (Some LOSE))
  else
    moved <- gets player_moved ;;
    if moved then
      perform_180_rotation e ;;
      emit (System "mpg123 lose.mp3") ;;
      speak_text "Movement detected! You're eliminated!" ;;
      emit (Log InfoMovedDuringRed) ;;
      assign (with_state GAME_OVER) ;;
      assign (with_game_result (Some LOSE))
    else
      check_light_deadline now e.

Definition game_over_state : M unit :=
  result <- gets game_result ;;
  match result with
  | None => raise (AttributeError "game_result")
  | Some r =>
      if (r =? WIN)%string then emit (Log InfoGameOverWins)
      else emit (Log InfoGameOverLoses)
  end ;;
  publish_state GAME_OVER ;;
  emit TimerCancel ;;
  assign (with_timer_cancelled true).

Definition main_loop (e : Env) : M unit :=
  st <- gets state ;;
  if (st =? "INSTRUCTIONS")%string then instructions_state e
  else if (st =? "COUNTDOWN")%string then countdown_state
  else if (st =? "INIT")%string then init_state e
  else if (st =? GREEN_LIGHT)%string then green_light_state e
  else if (st =? RED_LIGHT)%string then red_light_state e
  else if (st =? GAME_OVER)%string then game_over_state
  else emit (Log (ErrorUnknownState st)).

(** ** The detection tracker *)

(** The locals of [detection_callback]'s scan over the frame. *)
Record Scan := mkScan {
  person_detected : bool;
  max_size_y : Q;
  detection : option Detection2D
}.

Definition scan_start : Scan := mkScan false 0 None.

(** Body of [for result in det.results]. *)
Definition scan_result (det : Detection2D) (acc : Scan)
    (result : ObjectHypothesisWithPose) : Scan :=
  if (class_id (hypothesis result) =? "15")%string then
    let size_y := size_y (bbox det) in
    if Qlt_bool (max_size_y acc) size_y then mkScan true size_y (Some det)
    else acc
  else acc.

(** Body of [for det in msg.detections]. *)
Definition scan_detection (acc : Scan) (det : Detection2D) : Scan :=
  fold_left (scan_result det) (results det) acc.

Definition scan_frame (msg : Detection2DArray) : Scan :=
  fold_left scan_detection (detections msg) scan_start.

Definition delta_x (prev_det curr_det : Detection2D) : Q :=
  Qabs (x (position (center (bbox curr_det)))
        - x (position (center (bbox prev_det)))).
Definition delta_y (prev_det curr_det : Detection2D) : Q :=
  Qabs (y (position (center (bbox curr_det)))
        - y (position (center (bbox prev_det)))).
Definition delta_size_x (prev_det curr_det : Detection2D) : Q :=
  Qabs (size_x (bbox curr_det) - size_x (bbox prev_det)).
Definition delta_size_y (prev_det curr_det : Detection2D) : Q :=
  Qabs (size_y (bbox curr_det) - size_y (bbox prev_det)).

Definition detect_movement (prev_det curr_det : Detection2D) : M bool :=
  let dx := delta_x prev_det curr_det in
  let dy := delta_y prev_det curr_det in
  let dsx := delta_size_x prev_det curr_det in
  let dsy := delta_size_y prev_det curr_det in
  threshold <- gets movement_threshold ;;
  if Qlt_bool threshold dx || Qlt_bool threshold dy
     || Qlt_bool threshold dsx || Qlt_bool threshold dsy
  then emit (Log (InfoMovementDetected dx dy dsx dsy)) ;; ret true
  else ret false.

Definition detection_callback (msg : Detection2DArray) : M unit :=
  let found := scan_frame msg in
  when (person_detected found)
    (assign (with_current_detection (detection found)) ;;
     current <- gets current_detection ;;
     match current with
     | None => raise (AttributeError "bbox")
     | Some curr =>
         finish <- gets size_y_finish_line ;;
         when (Qle_bool finish (size_y (bbox curr)))
           (assign (with_player_reached_finish_line true))
     end ;;
     st <- gets state ;;
     when (st =? RED_LIGHT)%string
       (previous <- gets previous_detection ;;
        current <- gets current_detection ;;
        match previous, current with
        | Some prev, Some curr =>
            moved <- detect_movement prev curr ;;
            when moved (assign (with_player_moved true))
        | Some prev, None => raise (AttributeError "bbox")
        | None, _ => ret tt
        end) ;;
     current <- gets current_detection ;;
     assign (with_previous_detection current)).

(** ** The process: callbacks served one at a time by [rclpy.spin] *)

Inductive Event :=
| Tick (e : Env)                       (* the 0.1 s timer fires *)
| Detections (msg : Detection2DArray). (* a frame arrives on the topic *)

(** [crashed] holds the exception that escaped a callback and ended [spin]. *)
Record Proc := mkProc { sys : Sys; crashed : option Exn }.

Definition node (p : Proc) : Node := self (sys p).

Definition exec (m : M unit) (p : Proc) : Proc :=
  match m (sys p) with
  | (Done _, s') => mkProc s' None
  | (Raise e, s') => mkProc s' (Some e)
  end.

(** One event. A dead process serves nothing; a cancelled timer does not
    fire. *)
Definition deliver (p : Proc) (ev : Event) : Proc :=
  match crashed p with
  | Some _ => p
  | None =>
      match ev with
      | Tick e => if timer_cancelled (node p) then p else exec (main_loop e) p
      | Detections msg => exec (detection_callback msg) p
      end
  end.

Definition run (evs : list Event) (p : Proc) : Proc := fold_left deliver evs p.

Definition boot : Proc := mkProc init_sys None.

(** ** Closed forms used to describe what the methods leave behind *)

(** How a method run from [s] ends, and the system it leaves. *)
Definition outcome {A} (m : M A) (s : Sys) : Outcome A := fst (m s).
Definition after {A} (m : M A) (s : Sys) : Sys := snd (m s).

(** The effects of [k] iterations of the rotation loop, and of the whole
    rotation. *)
Definition spin_trace (speed : Q) (k : nat) : list Effect :=
  concat (repeat [PublishVel speed; Sleep 0.1] k).

Definition rotation_trace (speed : Q) (k : nat) : list Effect :=
  spin_trace speed k ++ [PublishVel 0; Log InfoRotationCompleted].

(** What a timeout leaves behind. *)
Definition timed_out (n : Node) (o : list Effect) : Sys :=
  mkSys (with_game_result (Some LOSE) (with_state GAME_OVER n))
        (o ++ [Speak "Time's up! Game Over!"; Log InfoTimeLimitReached]).

(** What reaching the finish line leaves behind. *)
Definition finished (n : Node) (o : list Effect) : Sys :=
  mkSys (with_game_result (Some WIN) (with_state GAME_OVER n))
        (o ++ [Speak "Congratulations! You've won!";
               Log InfoReachedFinishLine]).

(** The node once a light tick has recomputed the elapsed time. *)
Definition ticked (e : Env) (n : Node) (t0 : Z) : Node :=
  with_elapsed_time (seconds_between (clock_now e) t0) n.

(** What an elimination leaves behind. *)
Definition eliminated (e : Env) (n : Node) (o : list Effect) : Sys :=
  mkSys (with_game_result (Some LOSE) (with_state GAME_OVER n))
        (o ++ rotation_trace (rotation_speed n) (spins e)
           ++ [System "mpg123 lose.mp3";
               Speak "Movement detected! You're eliminated!";
               Log InfoMovedDuringRed]).

(** The node once a light of the given colour has been started. *)
Definition lit (colour : string) (e : Env) (n : Node) : Node :=
  let seconds :=
    random_uniform e (random_interval_min n) (random_interval_max n) in
  with_light_end_time (Some (clock_light e + duration_ns seconds)%Z)
    (with_current_light_duration seconds (with_state colour n)).

(** The effects of the instruction script and of the countdown. *)
Definition instructions_trace : list Effect :=
  flat_map (fun instruction => [Speak instruction; Sleep 0.5]) instructions.

Definition countdown_trace : list Effect :=
  [Speak "3"; Sleep 1; Speak "2"; Sleep 1; Speak "1"; Sleep 1;
   Speak "Begin!"; Log InfoCountdownCompleted].

(** The disjunction tested by [detect_movement]. *)
Definition exceeds (threshold : Q) (prev_det curr_det : Detection2D) : bool :=
  Qlt_bool threshold (delta_x prev_det curr_det)
  || Qlt_bool threshold (delta_y prev_det curr_det)
  || Qlt_bool threshold (delta_size_x prev_det curr_det)
  || Qlt_bool threshold (delta_size_y prev_det curr_det).

(** Whether ingesting [curr] in node [n] compares it with a stored previous
    detection and finds movement. *)
Definition movement_seen (n : Node) (curr : Detection2D) : bool :=
  (state n =? RED_LIGHT)%string
  && match previous_detection n with
     | Some prev => exceeds (movement_threshold n) prev curr
     | None => false
     end.

(** The system once the selected detection [curr] has been ingested. *)
Definition ingested (curr : Detection2D) (n : Node) (o : list Effect) : Sys :=
  let n1 := with_current_detection (Some curr) n in
  let n2 := if Qle_bool (size_y_finish_line n) (size_y (bbox curr))
            then with_player_reached_finish_line true n1 else n1 in
  let n3 := if movement_seen n curr then with_player_moved true n2 else n2 in
  mkSys (with_previous_detection (Some curr) n3)
    (o ++ match previous_detection n with
          | Some prev =>
              if movement_seen n curr then
                [Log (InfoMovementDetected
                        (delta_x prev curr) (delta_y prev curr)
                        (delta_size_x prev curr) (delta_size_y prev curr))]
              else []
          | None => []
          end).

(** The six values [main_loop] dispatches on. *)
Definition known_state (s : string) : bool :=
  (s =? "INSTRUCTIONS")%string || (s =? "COUNTDOWN")%string
  || (s =? "INIT")%string || (s =? GREEN_LIGHT)%string
  || (s =? RED_LIGHT)%string || (s =? GAME_OVER)%string.


(** The result that the phase-specific condition ends the game with. *)
Definition phase_verdict (n : Node) : string :=
  if (state n =? GREEN_LIGHT)%string then WIN else LOSE.

(** ** Reachable processes and their history *)

(** A publication of RED_LIGHT: the mark each [start_red_light] leaves in the
    effect trace. *)
Definition is_red_publish (x : Effect) : bool :=
  match x with
  | PublishState data => (data =? RED_LIGHT)%string
  | _ => false
  end.

Definition red_entries (o : list Effect) : nat :=
  length (filter is_red_publish o).

(** Whether a detection carries a hypothesis of class "15" (person). *)
Definition is_person (det : Detection2D) : bool :=
  existsb (fun result => (class_id (hypothesis result) =? "15")%string)
          (results det).

(** Whether a frame shows a person: one of its detections carries a class
    "15" hypothesis and has a strictly positive height. *)
Definition shows_person (msg : Detection2DArray) : bool :=
  existsb (fun det => is_person det && Qlt_bool 0 (size_y (bbox det)))
          (detections msg).

(** The count [k] of frames showing a person that have arrived since the last
    entry into RED_LIGHT (since start-up when there was none), brought up to
    date over the event [ev] that takes process [p] to [deliver p ev].  A
    frame sent to a process that an exception has stopped does not arrive. *)
Definition seen_since_red (p : Proc) (ev : Event) (k : nat) : nat :=
  match ev with
  | Tick _ =>
      if (red_entries (out (sys p)) <? red_entries (out (sys (deliver p ev))))%nat
      then O else k
  | Detections msg =>
      match crashed p with
      | Some _ => k
      | None => if shows_person msg then S k else k
      end
  end.

Fixpoint people_since_red (evs : list Event) (p : Proc) (k : nat) : nat :=
  match evs with
  | [] => k
  | ev :: evs' => people_since_red evs' (deliver p ev) (seen_since_red p ev k)
  end.

(** What holds of every process reachable from [boot]. *)
Definition Sound (p : Proc) : Prop :=
  crashed p = None /\
  rotation_speed (node p) = 1 /\
  known_state (state (node p)) = true /\
  (state (node p) = GREEN_LIGHT \/ state (node p) = RED_LIGHT ->
   game_start_time (node p) <> None /\ light_end_time (node p) <> None) /\
  (state (node p) = GAME_OVER ->
   game_result (node p) = Some WIN \/ game_result (node p) = Some LOSE) /\
  (state (node p) <> GAME_OVER -> game_result (node p) = None).

(** A live process whose phase is none of the six. *)
Definition paused_proc : Proc :=
  mkProc (mkSys (with_state "PAUSED" init_node) []) None.

(** The scan sets [person_detected] only together with [detection]. *)
Definition scan_consistent (acc : Scan) : Prop :=
  person_detected acc = true -> exists d, detection acc = Some d.

(** The stored previous detection is there exactly when the count is
    positive. *)
Definition previous_tracks (p : Proc) (k : nat) : Prop :=
  previous_detection (node p) <> None <-> (0 < k)%nat.

(** The exception, if any, that a callback lets escape. *)
Definition crash_of (r : Outcome unit) : option Exn :=
  match r with
  | Done _ => None
  | Raise x => Some x
  end.

(** ** Sample inputs *)

(** A detection of class "15" (person) with the given box. *)
Definition person_at (cx cy sx sy : Q) : Detection2D :=
  {| results := [ {| hypothesis := {| class_id := "15"; score := 0.9 |} |} ];
     bbox := {| center := {| position := {| x := cx; y := cy |}; theta := 0 |};
                size_x := sx; size_y := sy |} |}.

Definition frame_of (d : Detection2D) : Detection2DArray :=
  {| detections := [d] |}.

(** A tick at clock reading [now] (nanoseconds) with the given coin. *)
Definition tick_at (now : Z) (c : bool) : Event :=
  Tick (mkEnv now now c 0.5 2).

(** A node in GREEN_LIGHT, game started at clock 0, whose finish-line flag is
    already set. *)
Definition green_node_at_finish : Node :=
  with_player_reached_finish_line true
    (with_light_end_time (Some 130000000000%Z)
       (with_game_start_time (Some 0%Z) (with_state GREEN_LIGHT init_node))).



(** ** Notions for the further properties *)

(** What the scan holds once the detections [seen] have been visited. *)
Definition scan_selects (seen : list Detection2D) (acc : Scan) : Prop :=
  match detection acc with
  | None =>
      person_detected acc = false /\ max_size_y acc = 0 /\
      (forall d, In d seen -> is_person d = true -> size_y (bbox d) <= 0)
  | Some best =>
      person_detected acc = true /\ max_size_y acc = size_y (bbox best) /\
      0 < size_y (bbox best) /\ is_person best = true /\
      exists before later : list Detection2D,
        seen = (before ++ best :: later)%list /\
        (forall d, In d before -> is_person d = true ->
                   size_y (bbox d) < size_y (bbox best)) /\
        (forall d, In d later -> is_person d = true ->
                   size_y (bbox d) <= size_y (bbox best))
  end.

(** The attributes that carry the game itself, and the tunables. *)
Definition game_fields (n : Node) :=
  (state n, elapsed_time n, game_start_time n, current_light_duration n,
   light_end_time n, game_result n, timer_cancelled n).

Definition config (n : Node) :=
  (time_limit n, movement_threshold n, size_y_finish_line n, rotation_speed n,
   random_interval_min n, random_interval_max n).


(** The moves of the phase that one event may make: stay, or follow one edge
    of the game's timeline. *)
Definition phase_step (s s' : string) : bool :=
  (s' =? s)%string
  || ((s =? "INSTRUCTIONS")%string && (s' =? "COUNTDOWN")%string)
  || ((s =? "COUNTDOWN")%string && (s' =? "INIT")%string)
  || ((s =? "INIT")%string
      && ((s' =? GREEN_LIGHT)%string || (s' =? RED_LIGHT)%string))
  || ((s =? GREEN_LIGHT)%string
      && ((s' =? RED_LIGHT)%string || (s' =? GAME_OVER)%string))
  || ((s =? RED_LIGHT)%string
      && ((s' =? GREEN_LIGHT)%string || (s' =? GAME_OVER)%string)).

(** How far along the timeline a phase is. *)
Definition phase_rank (s : string) : nat :=
  if (s =? "INSTRUCTIONS")%string then 0
  else if (s =? "COUNTDOWN")%string then 1
  else if (s =? "INIT")%string then 2
  else if (s =? GREEN_LIGHT)%string then 3
  else if (s =? RED_LIGHT)%string then 3
  else if (s =? GAME_OVER)%string then 4
  else 5.

(** The last phase published on [game_state], if any. *)
Definition last_published (o : list Effect) : option string :=
  fold_left (fun acc x => match x with PublishState data => Some data
                                  | _ => acc end) o None.

(** The last angular velocity commanded on [cmd_vel], if any. *)
Definition last_velocity (o : list Effect) : option Q :=
  fold_left (fun acc x => match x with PublishVel v => Some v
                                  | _ => acc end) o None.

(** How many times GAME_OVER has been published. *)
Definition game_over_reports (o : list Effect) : nat :=
  length (filter (fun x => match x with
                           | PublishState data => (data =? GAME_OVER)%string
                           | _ => false
                           end) o).

(** The published phase agrees with the node's phase. *)
Definition published_in_sync (s : Sys) : Prop :=
  (state (self s) = GREEN_LIGHT \/ state (self s) = RED_LIGHT ->
   last_published (out s) = Some (state (self s))) /\
  (state (self s) = "INSTRUCTIONS" \/ state (self s) = "COUNTDOWN"
   \/ state (self s) = "INIT" ->
   last_published (out s) = None) /\
  (timer_cancelled (self s) = true ->
   last_published (out s) = Some GAME_OVER).

(** The robot is not left turning: no velocity was commanded yet, or the
    last command was a stop. *)
Definition at_rest (o : list Effect) : Prop :=
  last_velocity o = None \/ last_velocity o = Some 0.

(** A light started under [e] from [s] lasts between the two interval bounds
    of [s], and ends that long after the clock reading. *)
Definition light_timed (e : Env) (s s' : Sys) : Prop :=
  random_interval_min (self s) <= current_light_duration (self s') /\
  current_light_duration (self s') <= random_interval_max (self s) /\
  exists t_end : Z,
    light_end_time (self s') = Some t_end /\
    (clock_light e + duration_ns (random_interval_min (self s)) <= t_end)%Z /\
    (t_end <= clock_light e + duration_ns (random_interval_max (self s)))%Z.

(** A node in RED_LIGHT, game started at clock 0, that has seen the player
    move. *)
Definition red_node_moved : Node :=
  with_player_moved true
    (with_light_end_time (Some 130000000000%Z)
       (with_game_start_time (Some 0%Z) (with_state RED_LIGHT init_node))).

(** A node in GREEN_LIGHT, game started at clock 0, light due at 1 s. *)
Definition green_node_running : Node :=
  with_light_end_time (Some 1000000000%Z)
    (with_game_start_time (Some 0%Z) (with_state GREEN_LIGHT init_node)).

(** A node in RED_LIGHT, game started at clock 0, light due at 1 s, with a
    stored previous detection. *)
Definition red_node_running : Node :=
  with_previous_detection (Some (person_at 100 100 50 80))
    (with_light_end_time (Some 1000000000%Z)
       (with_game_start_time (Some 0%Z) (with_state RED_LIGHT init_node))).

(** [msg] is a frame whose scan selects [d]. *)
Definition selects (msg : Detection2DArray) (d : Detection2D) : Prop :=
  person_detected (scan_frame msg) = true /\ detection (scan_frame msg) = Some d.

(** No two consecutive detections of [prev :: ds] differ by more than the
    threshold in any of the four measures. *)
Fixpoint steady (threshold : Q) (prev : option Detection2D)
    (ds : list Detection2D) : bool :=
  match ds with
  | [] => true
  | d :: ds' =>
      negb match prev with
           | Some p => exceeds threshold p d
           | None => false
           end
      && steady threshold (Some d) ds'
  end.

(** Four frames of one person whose box drifts by 8 per frame. *)
Definition drifting : list Detection2D :=
  [person_at 100 100 50 80; person_at 108 100 50 80;
   person_at 116 100 50 80; person_at 124 100 50 80].

(** ** The detection tracker over IEEE doubles *)

(** The tracker of [detection_callback] and [detect_movement] once more, with
    the box fields and the two thresholds as binary64 floats and Python's
    [-], [abs], [>] and [>=] as the IEEE operations: rounding, infinities and
    NaN behave as in the running program.  Names are those of the source. *)
Module Double.
Import PrimFloat.

(** A decimal literal stands for the double nearest to it, as in Python. *)
#[local] Set Warnings "-inexact-float".

Record Point2D := { x : float; y : float }.
Record Pose2D := { position : Point2D; theta : float }.
Record BoundingBox2D := { center : Pose2D; size_x : float; size_y : float }.
Record ObjectHypothesis := { class_id : string; score : float }.
Record ObjectHypothesisWithPose := { hypothesis : ObjectHypothesis }.
Record Detection2D :=
  { results : list ObjectHypothesisWithPose; bbox : BoundingBox2D }.
Record Detection2DArray := { detections : list Detection2D }.

Record Node := mkNode {
  state : string;
  time_limit : float;
  elapsed_time : float;
  game_start_time : option Z;
  current_light_duration : float;
  light_end_time : option Z;
  movement_threshold : float;
  size_y_finish_line : float;
  player_reached_finish_line : bool;
  player_moved : bool;
  rotation_speed : float;
  previous_detection : option Detection2D;
  current_detection : option Detection2D;
  random_interval_min : float;
  random_interval_max : float;
  game_result : option string;
  timer_cancelled : bool
}.

Definition init_node : Node :=
  {| state := "INSTRUCTIONS";
     time_limit := 120;
     elapsed_time := 0;
     game_start_time := None;
     current_light_duration := 0;
     light_end_time := None;
     movement_threshold := 10;
     size_y_finish_line := 400;
     player_reached_finish_line := false;
     player_moved := false;
     rotation_speed := 1;
     previous_detection := None;
     current_detection := None;
     random_interval_min := 0.8;
     random_interval_max := 1.2;
     game_result := None;
     timer_cancelled := false |}.

Definition with_state (v : string) (n : Node) : Node :=
  mkNode v (time_limit n) (elapsed_time n) (game_start_time n)
    (current_light_duration n) (light_end_time n) (movement_threshold n)
    (size_y_finish_line n) (player_reached_finish_line n) (player_moved n)
    (rotation_speed n) (previous_detection n) (current_detection n)
    (random_interval_min n) (random_interval_max n) (game_result n)
    (timer_cancelled n).

Definition with_movement_threshold (v : float) (n : Node) : Node :=
  mkNode (state n) (time_limit n) (elapsed_time n) (game_start_time n)
    (current_light_duration n) (light_end_time n) v
    (size_y_finish_line n) (player_reached_finish_line n) (player_moved n)
    (rotation_speed n) (previous_detection n) (current_detection n)
    (random_interval_min n) (random_interval_max n) (game_result n)
    (timer_cancelled n).

Definition with_player_reached_finish_line (v : bool) (n : Node) : Node :=
  mkNode (state n) (time_limit n) (elapsed_time n) (game_start_time n)
    (current_light_duration n) (light_end_time n) (movement_threshold n)
    (size_y_finish_line n) v (player_moved n)
    (rotation_speed n) (previous_detection n) (current_detection n)
    (random_interval_min n) (random_interval_max n) (game_result n)
    (timer_cancelled n).

Definition with_player_moved (v : bool) (n : Node) : Node :=
  mkNode (state n) (time_limit n) (elapsed_time n) (game_start_time n)
    (current_light_duration n) (light_end_time n) (movement_threshold n)
    (size_y_finish_line n) (player_reached_finish_line n) v
    (rotation_speed n) (previous_detection n) (current_detection n)
    (random_interval_min n) (random_interval_max n) (game_result n)
    (timer_cancelled n).

Definition with_previous_detection (v : option Detection2D) (n : Node) : Node :=
  mkNode (state n) (time_limit n) (elapsed_time n) (game_start_time n)
    (current_light_duration n) (light_end_time n) (movement_threshold n)
    (size_y_finish_line n) (player_reached_finish_line n) (player_moved n)
    (rotation_speed n) v (current_detection n)
    (random_interval_min n) (random_interval_max n) (game_result n)
    (timer_cancelled n).

Definition with_current_detection (v : option Detection2D) (n : Node) : Node :=
  mkNode (state n) (time_limit n) (elapsed_time n) (game_start_time n)
    (current_light_duration n) (light_end_time n) (movement_threshold n)
    (size_y_finish_line n) (player_reached_finish_line n) (player_moved n)
    (rotation_speed n) (previous_detection n) v
    (random_interval_min n) (random_interval_max n) (game_result n)
    (timer_cancelled n).

(** The one line the tracker writes to the logger. *)
Inductive Effect :=
| LogMovementDetected (delta_x delta_y delta_size_x delta_size_y : float).

Record Sys := mkSys { self : Node; out : list Effect }.

Definition M (A : Type) : Type := Sys -> Outcome A * Sys.

Definition ret {A} (a : A) : M A := fun s => (Done a, s).

Definition bind {A B} (m : M A) (k : A -> M B) : M B :=
  fun s =>
    match m s with
    | (Done a, s') => k a s'
    | (Raise e, s') => (Raise e, s')
    end.

Definition raise {A} (e : Exn) : M A := fun s => (Raise e, s).

Definition gets {A} (f : Node -> A) : M A := fun s => (Done (f (self s)), s).

Definition assign (upd : Node -> Node) : M unit :=
  fun s => (Done tt, mkSys (upd (self s)) (out s)).

Definition emit (e : Effect) : M unit :=
  fun s => (Done tt, mkSys (self s) (out s ++ [e])).

Definition when (b : bool) (m : M unit) : M unit := if b then m else ret tt.

Definition outcome {A} (m : M A) (s : Sys) : Outcome A := fst (m s).
Definition after {A} (m : M A) (s : Sys) : Sys := snd (m s).

Local Notation "x <- m ;; k" := (bind m (fun x => k))
  (at level 61, m at next level, right associativity).
Local Notation "m ;; k" := (bind m (fun _ => k))
  (at level 61, right associativity).

Record Scan := mkScan {
  person_detected : bool;
  max_size_y : float;
  detection : option Detection2D
}.

Definition scan_start : Scan := mkScan false 0 None.

Definition scan_result (det : Detection2D) (acc : Scan)
    (result : ObjectHypothesisWithPose) : Scan :=
  if (class_id (hypothesis result) =? "15")%string then
    let size_y := size_y (bbox det) in
    if (max_size_y acc <? size_y)%float then mkScan true size_y (Some det)
    else acc
  else acc.

Definition scan_detection (acc : Scan) (det : Detection2D) : Scan :=
  fold_left (scan_result det) (results det) acc.

Definition scan_frame (msg : Detection2DArray) : Scan :=
  fold_left scan_detection (detections msg) scan_start.

Definition delta_x (prev_det curr_det : Detection2D) : float :=
  abs (x (position (center (bbox curr_det)))
       - x (position (center (bbox prev_det)))).
Definition delta_y (prev_det curr_det : Detection2D) : float :=
  abs (y (position (center (bbox curr_det)))
       - y (position (center (bbox prev_det)))).
Definition delta_size_x (prev_det curr_det : Detection2D) : float :=
  abs (size_x (bbox curr_det) - size_x (bbox prev_det)).
Definition delta_size_y (prev_det curr_det : Detection2D) : float :=
  abs (size_y (bbox curr_det) - size_y (bbox prev_det)).

Definition detect_movement (prev_det curr_det : Detection2D) : M bool :=
  let dx := delta_x prev_det curr_det in
  let dy := delta_y prev_det curr_det in
  let dsx := delta_size_x prev_det curr_det in
  let dsy := delta_size_y prev_det curr_det in
  threshold <- gets movement_threshold ;;
  if (threshold <? dx)%float || (threshold <? dy)%float
     || (threshold <? dsx)%float || (threshold <? dsy)%float
  then emit (LogMovementDetected dx dy dsx dsy) ;; ret true
  else ret false.

Definition detection_callback (msg : Detection2DArray) : M unit :=
  let found := scan_frame msg in
  when (person_detected found)
    (assign (with_current_detection (detection found)) ;;
     current <- gets current_detection ;;
     match current with
     | None => raise (AttributeError "bbox")
     | Some curr =>
         finish <- gets size_y_finish_line ;;
         when (finish <=? size_y (bbox curr))%float
           (assign (with_player_reached_finish_line true))
     end ;;
     st <- gets state ;;
     when (st =? RED_LIGHT)%string
       (previous <- gets previous_detection ;;
        current <- gets current_detection ;;
        match previous, current with
        | Some prev, Some curr =>
            moved <- detect_movement prev curr ;;
            when moved (assign (with_player_moved true))
        | Some prev, None => raise (AttributeError "bbox")
        | None, _ => ret tt
        end) ;;
     current <- gets current_detection ;;
     assign (with_previous_detection current)).

(** A detection of class "15" (person) with the given box. *)
Definition person_at (cx cy sx sy : float) : Detection2D :=
  {| results := [ {| hypothesis := {| class_id := "15"; score := 0.9 |} |} ];
     bbox := {| center := {| position := {| x := cx; y := cy |}; theta := 0 |};
                size_x := sx; size_y := sy |} |}.

Definition frame_of (d : Detection2D) : Detection2DArray :=
  {| detections := [d] |}.

(** A node in RED_LIGHT that has stored [prev], and the system around it. *)
Definition red_node_watching (prev : Detection2D) : Node :=
  with_previous_detection (Some prev) (with_state RED_LIGHT init_node).

Definition red_watching (prev : Detection2D) : Sys :=
  mkSys (red_node_watching prev) [].

(** All four box fields are finite numbers. *)
Definition finite_box (d : Detection2D) : bool :=
  is_finite (x (position (center (bbox d))))
  && is_finite (y (position (center (bbox d))))
  && is_finite (size_x (bbox d))
  && is_finite (size_y (bbox d)).

(** The disjunction tested by [detect_movement]. *)
Definition exceeds (threshold : float) (prev_det curr_det : Detection2D) : bool :=
  (threshold <? delta_x prev_det curr_det)%float
  || (threshold <? delta_y prev_det curr_det)%float
  || (threshold <? delta_size_x prev_det curr_det)%float
  || (threshold <? delta_size_y prev_det curr_det)%float.

(** Whether ingesting [curr] in node [n] compares it with a stored previous
    detection and finds movement. *)
Definition movement_seen (n : Node) (curr : Detection2D) : bool :=
  (state n =? RED_LIGHT)%string
  && match previous_detection n with
     | Some prev => exceeds (movement_threshold n) prev curr
     | None => false
     end.

(** The system once the selected detection [curr] has been ingested. *)
Definition ingested (curr : Detection2D) (n : Node) (o : list Effect) : Sys :=
  let n1 := with_current_detection (Some curr) n in
  let n2 := if (size_y_finish_line n <=? size_y (bbox curr))%float
            then with_player_reached_finish_line true n1 else n1 in
  let n3 := if movement_seen n curr then with_player_moved true n2 else n2 in
  mkSys (with_previous_detection (Some curr) n3)
    (o ++ match previous_detection n with
          | Some prev =>
              if movement_seen n curr then
                [LogMovementDetected
                   (delta_x prev curr) (delta_y prev curr)
                   (delta_size_x prev curr) (delta_size_y prev curr)]
              else []
          | None => []
          end).

(** A person whose box centre lies at an infinite abscissa. *)
Definition far_away : Detection2D := person_at infinity 100 50 80.

End Double.

(** * Equations of the methods *)

Arguments duration_ns : simpl never.
Arguments seconds_between : simpl never.
Arguments random_uniform : simpl never.
Arguments Qle_bool : simpl never.
Arguments Qlt_bool : simpl never.
Arguments Qeq_bool : simpl never.
Arguments Qabs : simpl never.
Arguments Qminus : simpl never.

Lemma spin_loop (k : nat) (n : Node) (o : list Effect) :
  repeat_m k
    (speed <- gets rotation_speed ;;
     emit (PublishVel speed) ;; emit (Sleep 0.1)) (mkSys n o)
  = (Done tt, mkSys n (o ++ spin_trace (rotation_speed n) k)).
Proof.
  revert o. induction k as [| k IH]; intros o.
  - cbn. now rewrite app_nil_r.
  - cbn [repeat_m]. unfold bind at 1. unfold bind at 1. unfold bind at 1.
    cbn -[repeat_m].
    rewrite IH. unfold spin_trace. cbn [repeat concat].
    rewrite <- !app_assoc. reflexivity.
Qed.

Lemma perform_180_rotation_eq (e : Env) (n : Node) (o : list Effect) :
  perform_180_rotation e (mkSys n o)
  = if Qeq_bool (rotation_speed n) 0 then (Raise ZeroDivisionError, mkSys n o)
    else (Done tt, mkSys n (o ++ rotation_trace (rotation_speed n) (spins e))).
Proof.
  unfold perform_180_rotation. unfold bind at 1, gets at 1. cbn [self].
  unfold bind at 1. destruct (Qeq_bool (rotation_speed n) 0); [reflexivity |].
  cbn [ret]. unfold bind at 1. rewrite spin_loop.
  unfold rotation_trace, bind, emit. cbn. rewrite <- !app_assoc. reflexivity.
Qed.

Lemma update_elapsed_time_eq (now : Z) (n : Node) (o : list Effect) :
  update_elapsed_time now (mkSys n o)
  = match game_start_time n with
    | None => (Raise (TypeError "game_start_time"), mkSys n o)
    | Some t0 => (Done tt, mkSys (with_elapsed_time (seconds_between now t0) n) o)
    end.
Proof.
  unfold update_elapsed_time, bind, gets. cbn. now destruct (game_start_time n).
Qed.

Lemma check_light_deadline_eq (now : Z) (e : Env) (n : Node) (o : list Effect) :
  check_light_deadline now e (mkSys n o)
  = match light_end_time n with
    | None => (Raise (TypeError "light_end_time"), mkSys n o)
    | Some t_end =>
        if (t_end <=? now)%Z then start_random_light e (mkSys n o)
        else (Done tt, mkSys n o)
    end.
Proof.
  unfold check_light_deadline, bind, gets, when. cbn.
  destruct (light_end_time n) as [t_end |]; [| reflexivity].
  now destruct (t_end <=? now)%Z.
Qed.

Lemma green_light_state_eq (e : Env) (n : Node) (o : list Effect) :
  green_light_state e (mkSys n o)
  = match game_start_time n with
    | None => (Raise (TypeError "game_start_time"), mkSys n o)
    | Some t0 =>
        if Qle_bool (time_limit n) (seconds_between (clock_now e) t0) then
          (Done tt, timed_out (ticked e n t0) o)
        else if player_reached_finish_line n then
          (Done tt, finished (ticked e n t0) o)
        else check_light_deadline (clock_now e) e (mkSys (ticked e n t0) o)
    end.
Proof.
  unfold green_light_state.
  unfold bind at 1. rewrite update_elapsed_time_eq.
  destruct (game_start_time n) as [t0 |]; [| reflexivity].
  fold (ticked e n t0). unfold bind at 1, gets at 1. unfold bind at 1, gets at 1.
  cbn [self ticked with_elapsed_time elapsed_time time_limit].
  destruct (Qle_bool (time_limit n) (seconds_between (clock_now e) t0)).
  - unfold timed_out, speak_text, bind, emit, assign. cbn.
    rewrite <- app_assoc. reflexivity.
  - unfold bind at 1, gets at 1.
    cbn [self ticked with_elapsed_time player_reached_finish_line].
    destruct (player_reached_finish_line n); [| reflexivity].
    unfold finished, speak_text, bind, emit, assign. cbn.
    rewrite <- app_assoc. reflexivity.
Qed.

Lemma red_light_state_eq (e : Env) (n : Node) (o : list Effect) :
  red_light_state e (mkSys n o)
  = match game_start_time n with
    | None => (Raise (TypeError "game_start_time"), mkSys n o)
    | Some t0 =>
        if Qle_bool (time_limit n) (seconds_between (clock_now e) t0) then
          (Done tt, timed_out (ticked e n t0) o)
        else if player_moved n then
          if Qeq_bool (rotation_speed n) 0 then
            (Raise ZeroDivisionError, mkSys (ticked e n t0) o)
          else (Done tt, eliminated e (ticked e n t0) o)
        else check_light_deadline (clock_now e) e (mkSys (ticked e n t0) o)
    end.
Proof.
  unfold red_light_state.
  unfold bind at 1. rewrite update_elapsed_time_eq.
  destruct (game_start_time n) as [t0 |]; [| reflexivity].
  fold (ticked e n t0). unfold bind at 1, gets at 1. unfold bind at 1, gets at 1.
  cbn [self ticked with_elapsed_time elapsed_time time_limit].
  destruct (Qle_bool (time_limit n) (seconds_between (clock_now e) t0)).
  - unfold timed_out, speak_text, bind, emit, assign. cbn.
    rewrite <- app_assoc. reflexivity.
  - unfold bind at 1, gets at 1.
    cbn [self ticked with_elapsed_time player_moved].
    destruct (player_moved n); [| reflexivity].
    unfold bind at 1. rewrite perform_180_rotation_eq.
    cbn [ticked with_elapsed_time rotation_speed].
    destruct (Qeq_bool (rotation_speed n) 0); [reflexivity |].
    unfold eliminated, speak_text, bind, emit, assign. cbn.
    rewrite <- !app_assoc. reflexivity.
Qed.

Lemma start_green_light_eq (e : Env) (n : Node) (o : list Effect) :
  start_green_light e (mkSys n o)
  = (Done tt,
     mkSys (lit GREEN_LIGHT e n)
       (o ++ [System "mpg123 green_light.mp3";
              Log (InfoGreenLightFor (current_light_duration (lit GREEN_LIGHT e n)));
              PublishState GREEN_LIGHT])).
Proof.
  unfold start_green_light, publish_state, bind, gets, assign, emit. cbn.
  rewrite <- !app_assoc. reflexivity.
Qed.

Lemma start_red_light_eq (e : Env) (n : Node) (o : list Effect) :
  start_red_light e (mkSys n o)
  = (Done tt,
     mkSys (with_player_moved false
              (with_previous_detection None (lit RED_LIGHT e n)))
       (o ++ [System "mpg123 red_light.mp3";
              Log (InfoRedLightFor (current_light_duration (lit RED_LIGHT e n)));
              PublishState RED_LIGHT])).
Proof.
  unfold start_red_light, publish_state, bind, gets, assign, emit. cbn.
  rewrite <- !app_assoc. reflexivity.
Qed.

Lemma start_random_light_eq (e : Env) (n : Node) (o : list Effect) :
  start_random_light e (mkSys n o)
  = if (state n =? GREEN_LIGHT)%string then start_red_light e (mkSys n o)
    else if coin e then start_green_light e (mkSys n o)
    else start_red_light e (mkSys n o).
Proof.
  unfold start_random_light, bind, gets. cbn [self].
  destruct (state n =? GREEN_LIGHT)%string; [reflexivity |].
  destruct (state n =? RED_LIGHT)%string; destruct (coin e); reflexivity.
Qed.

Lemma game_over_state_eq (n : Node) (o : list Effect) :
  game_over_state (mkSys n o)
  = match game_result n with
    | None => (Raise (AttributeError "game_result"), mkSys n o)
    | Some r =>
        (Done tt,
         mkSys (with_timer_cancelled true n)
           (o ++ [Log (if (r =? WIN)%string then InfoGameOverWins
                       else InfoGameOverLoses);
                  PublishState GAME_OVER; TimerCancel]))
    end.
Proof.
  unfold game_over_state, publish_state, bind, gets, assign, emit. cbn.
  destruct (game_result n) as [r |]; [| reflexivity].
  destruct (r =? WIN)%string; cbn; rewrite <- !app_assoc; reflexivity.
Qed.

Lemma instructions_state_eq (e : Env) (n : Node) (o : list Effect) :
  instructions_state e (mkSys n o)
  = if Qeq_bool (rotation_speed n) 0 then
      (Raise ZeroDivisionError, mkSys n (o ++ instructions_trace))
    else
      (Done tt,
       mkSys (with_state "COUNTDOWN" n)
         (o ++ instructions_trace
            ++ rotation_trace (rotation_speed n) (spins e)
            ++ [Log InfoInstructionsCompleted])).
Proof.
  unfold instructions_state. unfold bind at 1.
  assert (Hscript :
    for_each instructions
      (fun instruction => speak_text instruction ;; emit (Sleep 0.5))
      (mkSys n o) = (Done tt, mkSys n (o ++ instructions_trace))).
  { unfold speak_text, bind, emit. cbn. rewrite <- !app_assoc. reflexivity. }
  rewrite Hscript. unfold bind at 1. rewrite perform_180_rotation_eq.
  destruct (Qeq_bool (rotation_speed n) 0); [reflexivity |].
  unfold bind, assign, emit. cbn -[instructions_trace].
  rewrite <- !app_assoc. reflexivity.
Qed.

Lemma countdown_state_eq (n : Node) (o : list Effect) :
  countdown_state (mkSys n o)
  = (Done tt, mkSys (with_state "INIT" n) (o ++ countdown_trace)).
Proof.
  unfold countdown_state, speak_text, bind, assign, emit. cbn.
  rewrite <- !app_assoc. reflexivity.
Qed.

Lemma init_state_eq (e : Env) (n : Node) (o : list Effect) :
  init_state e (mkSys n o)
  = start_random_light e
      (mkSys (with_elapsed_time 0 (with_game_start_time (Some (clock_now e)) n))
             (o ++ [Log InfoGameStarting])).
Proof. reflexivity. Qed.

Lemma detect_movement_eq (prev curr : Detection2D) (n : Node) (o : list Effect) :
  detect_movement prev curr (mkSys n o)
  = if exceeds (movement_threshold n) prev curr then
      (Done true,
       mkSys n (o ++ [Log (InfoMovementDetected
                             (delta_x prev curr) (delta_y prev curr)
                             (delta_size_x prev curr) (delta_size_y prev curr))]))
    else (Done false, mkSys n o).
Proof.
  unfold detect_movement, exceeds, bind, gets. cbn [self].
  destruct (Qlt_bool (movement_threshold n) (delta_x prev curr)
            || Qlt_bool (movement_threshold n) (delta_y prev curr)
            || Qlt_bool (movement_threshold n) (delta_size_x prev curr)
            || Qlt_bool (movement_threshold n) (delta_size_y prev curr));
    reflexivity.
Qed.

Lemma detection_callback_eq (msg : Detection2DArray) (n : Node) (o : list Effect) :
  detection_callback msg (mkSys n o)
  = if person_detected (scan_frame msg) then
      match detection (scan_frame msg) with
      | Some curr => (Done tt, ingested curr n o)
      | None =>
          (Raise (AttributeError "bbox"), mkSys (with_current_detection None n) o)
      end
    else (Done tt, mkSys n o).
Proof.
  unfold detection_callback, when.
  destruct (person_detected (scan_frame msg)); [| reflexivity].
  destruct (detection (scan_frame msg)) as [curr |]; [| reflexivity].
  unfold ingested, movement_seen, bind, gets, assign, ret.
  cbn -[detect_movement exceeds].
  destruct (Qle_bool (size_y_finish_line n) (size_y (bbox curr)));
    cbn -[detect_movement exceeds];
    destruct (state n =? RED_LIGHT)%string; cbn -[detect_movement exceeds];
    destruct (previous_detection n) as [prev |]; cbn -[detect_movement exceeds];
    rewrite ?app_nil_r; try reflexivity;
    rewrite detect_movement_eq; cbn -[exceeds];
    destruct (exceeds (movement_threshold n) prev curr); cbn;
    rewrite ?app_nil_r; reflexivity.
Qed.

Lemma main_loop_eq (e : Env) (n : Node) (o : list Effect) :
  main_loop e (mkSys n o)
  = if (state n =? "INSTRUCTIONS")%string then instructions_state e (mkSys n o)
    else if (state n =? "COUNTDOWN")%string then countdown_state (mkSys n o)
    else if (state n =? "INIT")%string then init_state e (mkSys n o)
    else if (state n =? GREEN_LIGHT)%string then green_light_state e (mkSys n o)
    else if (state n =? RED_LIGHT)%string then red_light_state e (mkSys n o)
    else if (state n =? GAME_OVER)%string then game_over_state (mkSys n o)
    else (Done tt, mkSys n (o ++ [Log (ErrorUnknownState (state n))])).
Proof.
  unfold main_loop, bind, gets. cbn [self].
  repeat match goal with
         | |- context [if ?b then _ else _] => destruct b; [reflexivity |]
         end.
  reflexivity.
Qed.

(** Case analysis on the phase, in the order [main_loop] tests it. *)
Ltac split_on st :=
  destruct (String.eqb_spec st "INSTRUCTIONS");
  [| destruct (String.eqb_spec st "COUNTDOWN");
     [| destruct (String.eqb_spec st "INIT");
        [| destruct (String.eqb_spec st GREEN_LIGHT);
           [| destruct (String.eqb_spec st RED_LIGHT);
              [| destruct (String.eqb_spec st GAME_OVER)]]]]].

Ltac split_state n := split_on (state n).

Ltac handler_eqs :=
  rewrite ?instructions_state_eq, ?countdown_state_eq, ?init_state_eq,
    ?green_light_state_eq, ?red_light_state_eq, ?game_over_state_eq.

Ltac light_eqs :=
  rewrite ?check_light_deadline_eq; rewrite ?start_random_light_eq;
  rewrite ?start_green_light_eq, ?start_red_light_eq.

(** * The light scheduler *)

(** C5. Every entry into RedLight ([start_red_light]) finishes with the phase
    set to RED_LIGHT, the stored previous detection cleared and the movement
    flag false, whatever these fields held before (in particular a movement
    flag left true by an earlier RedLight interval). *)
Theorem start_red_light_clears_tracker (e : Env) (s : Sys) :
  outcome (start_red_light e) s = Done tt /\
  state (self (after (start_red_light e) s)) = RED_LIGHT /\
  previous_detection (self (after (start_red_light e) s)) = None /\
  player_moved (self (after (start_red_light e) s)) = false.
Proof. repeat split. Qed.

Lemma start_random_light_from_other (e : Env) (s : Sys) :
  state (self s) <> GREEN_LIGHT ->
  state (self (after (start_random_light e) s))
  = if coin e then GREEN_LIGHT else RED_LIGHT.
Proof.
  intros Hne. destruct s as [n o]. unfold after.
  rewrite start_random_light_eq.
  destruct (String.eqb_spec (state n) GREEN_LIGHT) as [Heq | _];
    [contradiction |].
  destruct (coin e); reflexivity.
Qed.

(** C1. For every invocation of [start_random_light]: from GREEN_LIGHT the
    next phase is RED_LIGHT whatever the random source says; from any other
    phase (RED_LIGHT, or INIT on the first call) the next phase is the one the
    coin picks, GREEN_LIGHT or RED_LIGHT, and both occur for some draw, so a
    red light may follow a red light. *)
Theorem start_random_light_next_phase (s : Sys) :
  (state (self s) = GREEN_LIGHT ->
   forall e, state (self (after (start_random_light e) s)) = RED_LIGHT) /\
  (state (self s) = RED_LIGHT \/ state (self s) = "INIT" ->
   (forall e, state (self (after (start_random_light e) s))
              = if coin e then GREEN_LIGHT else RED_LIGHT) /\
   (exists e, state (self (after (start_random_light e) s)) = GREEN_LIGHT) /\
   (exists e, state (self (after (start_random_light e) s)) = RED_LIGHT)).
Proof.
  split.
  - intros Hgreen e. destruct s as [n o]. cbn [self] in Hgreen.
    unfold after. rewrite start_random_light_eq, Hgreen. reflexivity.
  - intros Hfrom.
    assert (Hne : state (self s) <> GREEN_LIGHT)
      by (destruct Hfrom as [H | H]; rewrite H; discriminate).
    split; [| split].
    + intros e. now apply start_random_light_from_other.
    + exists (mkEnv 0 0 true 0 0).
      now rewrite start_random_light_from_other.
    + exists (mkEnv 0 0 false 0 0).
      now rewrite start_random_light_from_other.
Qed.

Lemma start_random_light_next_phase_witness :
  state (self (after (start_random_light (mkEnv 0 0 true 0 0))
                 (mkSys (with_state GREEN_LIGHT init_node) []))) = RED_LIGHT
  /\ state (self (after (start_random_light (mkEnv 0 0 true 0 0))
                    (mkSys (with_state RED_LIGHT init_node) []))) = GREEN_LIGHT
  /\ state (self (after (start_random_light (mkEnv 0 0 false 0 0))
                    (mkSys (with_state RED_LIGHT init_node) []))) = RED_LIGHT
  /\ state (self (after (start_random_light (mkEnv 0 0 true 0 0))
                    (mkSys (with_state "INIT" init_node) []))) = GREEN_LIGHT.
Proof.
  split; [| split; [| split]].
  - exact (proj1 (start_random_light_next_phase
                    (mkSys (with_state GREEN_LIGHT init_node) []))
                 eq_refl (mkEnv 0 0 true 0 0)).
  - exact (proj1 (proj2 (start_random_light_next_phase
                           (mkSys (with_state RED_LIGHT init_node) []))
                        (or_introl eq_refl)) (mkEnv 0 0 true 0 0)).
  - exact (proj1 (proj2 (start_random_light_next_phase
                           (mkSys (with_state RED_LIGHT init_node) []))
                        (or_introl eq_refl)) (mkEnv 0 0 false 0 0)).
  - exact (proj1 (proj2 (start_random_light_next_phase
                           (mkSys (with_state "INIT" init_node) []))
                        (or_intror eq_refl)) (mkEnv 0 0 true 0 0)).
Defined.

(** * The detection tracker *)

Lemma Qlt_bool_iff (a b : Q) : Qlt_bool a b = true <-> a < b.
Proof. unfold Qlt_bool, Qlt. apply Z.ltb_lt. Qed.

Lemma ingested_player_moved (curr : Detection2D) (n : Node) (o : list Effect) :
  player_moved (self (ingested curr n o))
  = movement_seen n curr || player_moved n.
Proof.
  unfold ingested.
  destruct (movement_seen n curr);
    destruct (Qle_bool (size_y_finish_line n) (size_y (bbox curr)));
    reflexivity.
Qed.

Lemma ingested_previous (curr : Detection2D) (n : Node) (o : list Effect) :
  previous_detection (self (ingested curr n o)) = Some curr.
Proof. reflexivity. Qed.

Lemma ingested_state (curr : Detection2D) (n : Node) (o : list Effect) :
  state (self (ingested curr n o)) = state n.
Proof.
  unfold ingested.
  destruct (movement_seen n curr);
    destruct (Qle_bool (size_y_finish_line n) (size_y (bbox curr)));
    reflexivity.
Qed.

Lemma ingested_movement_threshold
    (curr : Detection2D) (n : Node) (o : list Effect) :
  movement_threshold (self (ingested curr n o)) = movement_threshold n.
Proof.
  unfold ingested.
  destruct (movement_seen n curr);
    destruct (Qle_bool (size_y_finish_line n) (size_y (bbox curr)));
    reflexivity.
Qed.

(** * The tick of a light phase *)

Lemma Qle_bool_false_iff (a b : Q) : Qle_bool a b = false <-> b < a.
Proof.
  rewrite <- not_true_iff_false, Qle_bool_iff. split.
  - apply Qnot_le_lt.
  - apply Qlt_not_le.
Qed.



Lemma last_published_app (a b : list Effect) :
  last_published (a ++ b)
  = match last_published b with
    | Some data => Some data
    | None => last_published a
    end.
Proof.
  unfold last_published. rewrite fold_left_app.
  generalize (fold_left
                (fun acc x => match x with PublishState data => Some data
                                      | _ => acc end) a None).
  induction b as [| x b IH]; intros acc; [reflexivity |].
  cbn [fold_left]. rewrite IH. rewrite (IH (match x with
                                            | PublishState data => Some data
                                            | _ => None
                                            end)).
  destruct x;
    try (destruct (fold_left
                     (fun acc x => match x with PublishState data => Some data
                                           | _ => acc end) b None));
    reflexivity.
Qed.



(** * The process: what every callback preserves *)

Lemma node_exec (m : M unit) (p : Proc) :
  node (exec m p) = self (after m (sys p)).
Proof.
  unfold node, exec, after. now destruct (m (sys p)) as [[[] | x] s'].
Qed.

Lemma detection_callback_state (msg : Detection2DArray) (s : Sys) :
  state (self (after (detection_callback msg) s)) = state (self s).
Proof.
  destruct s as [n o]. unfold after. rewrite detection_callback_eq.
  destruct (person_detected (scan_frame msg)); [| reflexivity].
  destruct (detection (scan_frame msg)); [| reflexivity].
  apply ingested_state.
Qed.

Lemma main_loop_game_over (e : Env) (s : Sys) :
  state (self s) = GAME_OVER ->
  state (self (after (main_loop e) s)) = GAME_OVER.
Proof.
  destruct s as [n o]. cbn [self]. intros Hover. unfold after.
  rewrite main_loop_eq, Hover. cbn [String.eqb Ascii.eqb Bool.eqb].
  rewrite game_over_state_eq. now destruct (game_result n).
Qed.

Lemma deliver_game_over (p : Proc) (ev : Event) :
  state (node p) = GAME_OVER -> state (node (deliver p ev)) = GAME_OVER.
Proof.
  intros Hover. unfold deliver.
  destruct (crashed p); [exact Hover |].
  destruct ev as [e | msg].
  - destruct (timer_cancelled (node p)); [exact Hover |].
    rewrite node_exec. now apply main_loop_game_over.
  - rewrite node_exec, detection_callback_state. exact Hover.
Qed.

(** C4. GAME_OVER is terminal: from any process whose phase is GAME_OVER, a
    direct call of [main_loop], a direct call of [detection_callback], and any
    sequence of timer ticks and detection frames all leave the phase at
    GAME_OVER. *)
Theorem game_over_terminal (p : Proc) :
  state (node p) = GAME_OVER ->
  (forall e, state (node (exec (main_loop e) p)) = GAME_OVER) /\
  (forall msg, state (node (exec (detection_callback msg) p)) = GAME_OVER) /\
  (forall evs, state (node (run evs p)) = GAME_OVER).
Proof.
  intros Hover. split; [| split].
  - intros e. rewrite node_exec. now apply main_loop_game_over.
  - intros msg. rewrite node_exec, detection_callback_state. exact Hover.
  - intros evs. revert p Hover.
    induction evs as [| ev evs IH]; intros p Hover; [exact Hover |].
    cbn [run fold_left]. apply IH. now apply deliver_game_over.
Qed.

Lemma game_over_terminal_witness :
  state (node (run [tick_at 0 true;
                    Detections (frame_of (person_at 100 100 50 80));
                    tick_at 100000000 false]
                 (mkProc (mkSys (with_game_result (Some WIN)
                                   (with_state GAME_OVER init_node)) []) None)))
  = GAME_OVER.
Proof.
  exact (proj2 (proj2 (game_over_terminal
                         (mkProc (mkSys (with_game_result (Some WIN)
                                           (with_state GAME_OVER init_node)) [])
                                 None)
                         eq_refl))
               [tick_at 0 true;
                Detections (frame_of (person_at 100 100 50 80));
                tick_at 100000000 false]).
Defined.


Lemma main_loop_keeps_finish_flag (e : Env) (s : Sys) :
  player_reached_finish_line (self (after (main_loop e) s))
  = player_reached_finish_line (self s).
Proof.
  destruct s as [n o]. unfold after. rewrite main_loop_eq.
  split_state n; handler_eqs.
  all: repeat (light_eqs; match goal with
         | |- context [match ?x with _ => _ end] => destruct x eqn:?
         end); light_eqs; try reflexivity.
Qed.

Lemma ingested_finish_flag (curr : Detection2D) (n : Node) (o : list Effect) :
  player_reached_finish_line (self (ingested curr n o))
  = Qle_bool (size_y_finish_line n) (size_y (bbox curr))
    || player_reached_finish_line n.
Proof.
  unfold ingested.
  destruct (movement_seen n curr);
    destruct (Qle_bool (size_y_finish_line n) (size_y (bbox curr)));
    reflexivity.
Qed.

Lemma deliver_finish_flag (p : Proc) (ev : Event) :
  player_reached_finish_line (node p) = true ->
  player_reached_finish_line (node (deliver p ev)) = true.
Proof.
  intros Hset. unfold deliver.
  destruct (crashed p); [exact Hset |].
  destruct ev as [e | msg].
  - destruct (timer_cancelled (node p)); [exact Hset |].
    rewrite node_exec, main_loop_keeps_finish_flag. exact Hset.
  - rewrite node_exec. unfold node in Hset. destruct (sys p) as [n o].
    unfold after. rewrite detection_callback_eq.
    destruct (person_detected (scan_frame msg)); [| exact Hset].
    destruct (detection (scan_frame msg)); [| exact Hset].
    cbn [snd]. rewrite ingested_finish_flag. cbn [self] in Hset.
    rewrite Hset. apply orb_true_r.
Qed.

Lemma run_finish_flag (evs : list Event) (p : Proc) :
  player_reached_finish_line (node p) = true ->
  player_reached_finish_line (node (run evs p)) = true.
Proof.
  revert p. induction evs as [| ev evs IH]; intros p Hset; [exact Hset |].
  cbn [run fold_left]. apply IH. now apply deliver_finish_flag.
Qed.

(** C6. When a running process ingests a frame whose selected person
    detection [d] has [size_y] at or above the finish-line threshold,
    [player_reached_finish_line] is true right after the frame and after every
    further sequence of ticks and frames: nothing resets it. *)
Theorem finish_line_flag_sticky
    (p : Proc) (msg : Detection2DArray) (d : Detection2D) (evs : list Event) :
  crashed p = None ->
  person_detected (scan_frame msg) = true ->
  detection (scan_frame msg) = Some d ->
  size_y_finish_line (node p) <= size_y (bbox d) ->
  player_reached_finish_line (node (run evs (deliver p (Detections msg))))
  = true.
Proof.
  intros Halive Hseen Hsel Hsize. apply run_finish_flag.
  unfold deliver. rewrite Halive, node_exec.
  unfold node in Hsize. destruct (sys p) as [n o]. cbn [self] in Hsize.
  unfold after. rewrite detection_callback_eq, Hseen, Hsel. cbn [snd].
  rewrite ingested_finish_flag.
  apply Qle_bool_iff in Hsize. now rewrite Hsize.
Qed.

Lemma finish_line_flag_sticky_witness :
  player_reached_finish_line
    (node (run [tick_at 0 true; tick_at 100000000 true; tick_at 200000000 false]
               (deliver boot (Detections (frame_of (person_at 100 100 200 450))))))
  = true.
Proof.
  apply (finish_line_flag_sticky boot
           (frame_of (person_at 100 100 200 450)) (person_at 100 100 200 450)
           [tick_at 0 true; tick_at 100000000 true; tick_at 200000000 false]
           eq_refl eq_refl eq_refl).
  discriminate.
Defined.

(** * An unknown phase *)

Lemma unknown_state_tick (e : Env) (n : Node) (o : list Effect) :
  known_state (state n) = false ->
  main_loop e (mkSys n o)
  = (Done tt, mkSys n (o ++ [Log (ErrorUnknownState (state n))])).
Proof.
  unfold known_state. rewrite !orb_false_iff.
  intros [[[[[H1 H2] H3] H4] H5] H6].
  rewrite main_loop_eq, H1, H2, H3, H4, H5, H6. reflexivity.
Qed.

(** C9 (as the code has it). When [main_loop] runs with a phase outside
    INSTRUCTIONS, COUNTDOWN, INIT, GREEN_LIGHT, RED_LIGHT, GAME_OVER it raises
    nothing: it writes one error line "Unknown state" and returns, leaving
    every attribute (the phase and the timer included) as it was, so a live
    process with an active timer serves the tick and stays ready for the
    next one. *)
Theorem unknown_state_logged_only (e : Env) (p : Proc) :
  known_state (state (node p)) = false ->
  crashed p = None ->
  timer_cancelled (node p) = false ->
  main_loop e (sys p)
  = (Done tt,
     mkSys (node p) (out (sys p) ++ [Log (ErrorUnknownState (state (node p)))]))
  /\ deliver p (Tick e)
     = mkProc (mkSys (node p)
                 (out (sys p) ++ [Log (ErrorUnknownState (state (node p)))]))
              None.
Proof.
  intros Hunknown Halive Htimer.
  assert (Htick : main_loop e (sys p)
                  = (Done tt,
                     mkSys (node p)
                       (out (sys p)
                          ++ [Log (ErrorUnknownState (state (node p)))]))).
  { unfold node in *. destruct (sys p) as [n o]. cbn [self out] in *.
    now apply unknown_state_tick. }
  split; [exact Htick |].
  unfold deliver, exec. now rewrite Halive, Htimer, Htick.
Qed.

(** C9, counterexample to "an unknown phase is fatal": with the phase set to
    "PAUSED" two ticks in a row are served, each only logs, nothing is raised
    and the timer is still active afterwards. *)
Lemma unknown_state_keeps_ticking :
  known_state (state (node paused_proc)) = false
  /\ run [tick_at 0 true; tick_at 100000000 true] paused_proc
     = mkProc (mkSys (with_state "PAUSED" init_node)
                 [Log (ErrorUnknownState "PAUSED");
                  Log (ErrorUnknownState "PAUSED")])
              None
  /\ timer_cancelled
       (node (run [tick_at 0 true; tick_at 100000000 true] paused_proc))
     = false.
Proof. repeat split. Qed.

Lemma unknown_state_logged_only_witness :
  deliver paused_proc (tick_at 0 true)
  = mkProc (mkSys (with_state "PAUSED" init_node)
              [Log (ErrorUnknownState "PAUSED")]) None.
Proof.
  exact (proj2 (unknown_state_logged_only (mkEnv 0 0 true 0.5 2) paused_proc
                  eq_refl eq_refl eq_refl)).
Defined.

(** * The previous detection *)

Lemma red_entries_app (a b : list Effect) :
  red_entries (a ++ b) = (red_entries a + red_entries b)%nat.
Proof. unfold red_entries. now rewrite filter_app, length_app. Qed.

Lemma red_entries_spin (speed : Q) (k : nat) :
  red_entries (spin_trace speed k) = 0%nat.
Proof.
  unfold spin_trace. induction k as [| k IH]; [reflexivity |].
  cbn [repeat concat]. rewrite red_entries_app, IH. reflexivity.
Qed.

Lemma red_entries_rotation (speed : Q) (k : nat) :
  red_entries (rotation_trace speed k) = 0%nat.
Proof.
  unfold rotation_trace. rewrite red_entries_app, red_entries_spin.
  reflexivity.
Qed.

Lemma scan_result_consistent (det : Detection2D) (acc : Scan)
    (result : ObjectHypothesisWithPose) :
  scan_consistent acc -> scan_consistent (scan_result det acc result).
Proof.
  intros Hacc. unfold scan_result.
  destruct (class_id (hypothesis result) =? "15")%string; [| exact Hacc].
  destruct (Qlt_bool (max_size_y acc) (size_y (bbox det))); [| exact Hacc].
  intros _. now exists det.
Qed.

Lemma scan_detection_consistent (acc : Scan) (det : Detection2D) :
  scan_consistent acc -> scan_consistent (scan_detection acc det).
Proof.
  unfold scan_detection. revert acc.
  induction (results det) as [| r rs IH]; intros acc Hacc; [exact Hacc |].
  cbn [fold_left]. apply IH. now apply scan_result_consistent.
Qed.

Lemma scan_frame_consistent (msg : Detection2DArray) :
  scan_consistent (scan_frame msg).
Proof.
  unfold scan_frame.
  assert (Hstart : scan_consistent scan_start) by (intros H; discriminate H).
  revert Hstart. generalize scan_start.
  induction (detections msg) as [| d ds IH]; intros acc Hacc; [exact Hacc |].
  cbn [fold_left]. apply IH. now apply scan_detection_consistent.
Qed.

Ltac tick_leaf :=
  cbn [snd fst self out];
  unfold timed_out, finished, eliminated, ticked, lit;
  cbn [self out previous_detection with_previous_detection with_player_moved
       with_game_result with_state with_elapsed_time with_light_end_time
       with_current_light_duration with_game_start_time with_timer_cancelled];
  rewrite ?red_entries_app, ?red_entries_rotation;
  cbn [red_entries filter is_red_publish length instructions_trace
       countdown_trace flat_map instructions app String.eqb Ascii.eqb Bool.eqb
       RED_LIGHT GREEN_LIGHT GAME_OVER].

(** A tick either enters RED_LIGHT, publishing it once and clearing the
    previous detection, or publishes no RED_LIGHT and keeps the previous
    detection. *)
Lemma main_loop_red_entry (e : Env) (n : Node) (o : list Effect) :
  (red_entries (out (after (main_loop e) (mkSys n o))) = S (red_entries o)
   /\ previous_detection (self (after (main_loop e) (mkSys n o))) = None)
  \/ (red_entries (out (after (main_loop e) (mkSys n o))) = red_entries o
      /\ previous_detection (self (after (main_loop e) (mkSys n o)))
         = previous_detection n).
Proof.
  unfold after. rewrite main_loop_eq.
  split_state n; handler_eqs.
  all: repeat (light_eqs; match goal with
         | |- context [match ?x with _ => _ end] => destruct x eqn:?
         end); light_eqs; tick_leaf;
       first [ right; split; [lia | reflexivity]
             | left; split; [lia | reflexivity] ].
Qed.

(** * The game result *)

Lemma sound_boot : Sound boot.
Proof.
  unfold Sound, boot, node. cbn [sys self crashed init_sys].
  split; [reflexivity |]. split; [reflexivity |]. split; [reflexivity |].
  split; [intros [H | H]; discriminate H |].
  split; [discriminate | reflexivity].
Qed.

Lemma exec_eq (m : M unit) (p : Proc) :
  exec m p = mkProc (after m (sys p)) (crash_of (outcome m (sys p))).
Proof.
  unfold exec, after, outcome. now destruct (m (sys p)) as [[[] | x] s'].
Qed.

Lemma sound_tick (e : Env) (p : Proc) :
  Sound p -> Sound (exec (main_loop e) p).
Proof.
  rewrite exec_eq.
  destruct p as [[n o] c]. unfold Sound, node, after, outcome.
  cbn [sys self crashed].
  intros (Hc & Hsp & Hk & Hclock & Hres & Hunset).
  rewrite main_loop_eq.
  split_on (state n); handler_eqs.
  all: repeat (light_eqs; match goal with
         | |- context [match ?x with _ => _ end] => destruct x eqn:?
         end); light_eqs.
  all: cbn [sys self crashed fst snd crash_of].
  all: try (unfold timed_out, finished, eliminated, ticked, lit).
  all: cbn [self state rotation_speed game_start_time light_end_time game_result
            with_previous_detection with_player_moved
            with_game_result with_state with_elapsed_time with_light_end_time
            with_current_light_duration with_game_start_time
            with_timer_cancelled].
  all: try match goal with
           | H : Qeq_bool (rotation_speed _) 0 = true |- _ =>
               rewrite Hsp in H; discriminate H
           end.
  all: try match goal with
           | Hst : state _ = _ |- Some _ = None /\ _ =>
               exfalso; unfold ticked in *;
               cbn [light_end_time with_elapsed_time] in *;
               first [ destruct (Hclock (or_introl Hst)); congruence
                     | destruct (Hclock (or_intror Hst)); congruence
                     | destruct (Hres Hst); congruence ]
           end.
  all: try match goal with
           | Hst : state _ = _ |- _ =>
               assert (Hnone : game_result _ = None)
                 by (apply Hunset; rewrite Hst; discriminate)
           end.
  all: split; [reflexivity |].
  all: split; [exact Hsp |].
  all: split; [first [reflexivity | exact Hk] |].
  all: split;
    [ first [ exact Hclock
            | intros [H | H]; discriminate H
            | intros _; split; first [discriminate | congruence]
            | intros Hor; destruct (Hclock Hor); split; congruence ] |].
  all: split;
    [ first [ exact Hres | intros H; discriminate H | solve [intros _; auto]
            | intros Hs; destruct (Hres Hs); [left | right]; congruence ] |].
  all: first [ exact Hunset
             | intros _; exact Hnone
             | intros H; exfalso; apply H; reflexivity
             | intros H; contradiction ].
Qed.

Lemma sound_frame (msg : Detection2DArray) (p : Proc) :
  Sound p -> Sound (exec (detection_callback msg) p).
Proof.
  rewrite exec_eq.
  destruct p as [[n o] c]. unfold Sound, node, after, outcome.
  cbn [sys self crashed].
  intros [_ Hsound]. rewrite detection_callback_eq.
  destruct (person_detected (scan_frame msg)) eqn:Hseen;
    [| split; [reflexivity | exact Hsound]].
  destruct (scan_frame_consistent msg Hseen) as [d Hsel]. rewrite Hsel.
  cbn [fst snd crash_of]. unfold ingested.
  destruct (movement_seen n d);
    destruct (Qle_bool (size_y_finish_line n) (size_y (bbox d)));
    (split; [reflexivity | exact Hsound]).
Qed.

Lemma sound_deliver (p : Proc) (ev : Event) : Sound p -> Sound (deliver p ev).
Proof.
  intros Hsound. unfold deliver.
  destruct (crashed p); [exact Hsound |].
  destruct ev as [e | msg].
  - destruct (timer_cancelled (node p)); [exact Hsound |].
    now apply sound_tick.
  - now apply sound_frame.
Qed.

Lemma sound_run (evs : list Event) (p : Proc) : Sound p -> Sound (run evs p).
Proof.
  revert p. induction evs as [| ev evs IH]; intros p Hsound; [exact Hsound |].
  cbn [run fold_left]. apply IH. now apply sound_deliver.
Qed.

Lemma ingested_game_result (curr : Detection2D) (n : Node) (o : list Effect) :
  game_result (self (ingested curr n o)) = game_result n.
Proof.
  unfold ingested.
  destruct (movement_seen n curr);
    destruct (Qle_bool (size_y_finish_line n) (size_y (bbox curr)));
    reflexivity.
Qed.

Lemma deliver_keeps_result (p : Proc) (ev : Event) :
  state (node p) = GAME_OVER ->
  game_result (node (deliver p ev)) = game_result (node p).
Proof.
  intros Hover. unfold deliver.
  destruct (crashed p); [reflexivity |].
  destruct ev as [e | msg].
  - destruct (timer_cancelled (node p)); [reflexivity |].
    rewrite node_exec. unfold node in *. destruct (sys p) as [n o].
    cbn [self] in *. unfold after.
    rewrite main_loop_eq, Hover.
    change (GAME_OVER =? "INSTRUCTIONS")%string with false.
    change (GAME_OVER =? "COUNTDOWN")%string with false.
    change (GAME_OVER =? "INIT")%string with false.
    change (GAME_OVER =? GREEN_LIGHT)%string with false.
    change (GAME_OVER =? RED_LIGHT)%string with false.
    change (GAME_OVER =? GAME_OVER)%string with true. cbv iota.
    rewrite game_over_state_eq.
    destruct (game_result n) eqn:Hr;
      cbn [snd self game_result with_timer_cancelled]; congruence.
  - rewrite node_exec. unfold node. destruct (sys p) as [n o].
    unfold after. rewrite detection_callback_eq.
    destruct (person_detected (scan_frame msg)); [| reflexivity].
    destruct (detection (scan_frame msg)); [| reflexivity].
    apply ingested_game_result.
Qed.

Lemma run_keeps_result (evs : list Event) (p : Proc) :
  state (node p) = GAME_OVER ->
  game_result (node (run evs p)) = game_result (node p).
Proof.
  revert p. induction evs as [| ev evs IH]; intros p Hover; [reflexivity |].
  cbn [run fold_left]. rewrite IH by now apply deliver_game_over.
  now apply deliver_keeps_result.
Qed.

(** C10. In every process reachable from start-up no callback has raised,
    [game_result] holds WIN or LOSE when the phase is GAME_OVER and is still
    unassigned in every other phase, so [game_over_state] reads an assigned
    field and finishes; once assigned, the result keeps its value over every
    further sequence of events. *)
Theorem game_result_set_exactly_at_game_over (evs : list Event) :
  let p := run evs boot in
  crashed p = None /\
  (state (node p) = GAME_OVER ->
   game_result (node p) = Some WIN \/ game_result (node p) = Some LOSE) /\
  (state (node p) <> GAME_OVER -> game_result (node p) = None) /\
  (state (node p) = GAME_OVER -> outcome game_over_state (sys p) = Done tt) /\
  (forall r evs', game_result (node p) = Some r ->
                  game_result (node (run evs' p)) = Some r).
Proof.
  intros p.
  destruct (sound_run evs boot sound_boot)
    as (Halive & _ & _ & _ & Hset & Hunset).
  fold p in Halive, Hset, Hunset.
  split; [exact Halive |].
  split; [exact Hset |].
  split; [exact Hunset |].
  split.
  - intros Hover. unfold outcome, node in *. destruct (sys p) as [n o].
    cbn [self] in *. rewrite game_over_state_eq.
    destruct (Hset Hover) as [H | H]; rewrite H; reflexivity.
  - intros r evs' Hr.
    destruct (string_dec (state (node p)) GAME_OVER) as [Hover | Hother].
    + rewrite run_keeps_result by exact Hover. exact Hr.
    + rewrite (Hunset Hother) in Hr. discriminate Hr.
Qed.

Lemma game_result_set_exactly_at_game_over_witness :
  game_result
    (node (run [tick_at 400000000 true]
             (run [tick_at 0 true; tick_at 100000000 true;
                   tick_at 200000000 true;
                   Detections (frame_of (person_at 100 100 200 450));
                   tick_at 300000000 true] boot)))
  = Some WIN.
Proof.
  apply (proj2 (proj2 (proj2 (proj2
           (game_result_set_exactly_at_game_over
              [tick_at 0 true; tick_at 100000000 true; tick_at 200000000 true;
               Detections (frame_of (person_at 100 100 200 450));
               tick_at 300000000 true])))) WIN [tick_at 400000000 true]).
  vm_compute. reflexivity.
Defined.

(** * Further properties of the node *)

Local Open Scope list_scope.

(** *** The scan of a frame *)

Lemma Qlt_bool_irrefl (a : Q) : Qlt_bool a a = false.
Proof. unfold Qlt_bool. apply Z.ltb_irrefl. Qed.

Lemma Qlt_bool_false_iff (a b : Q) : Qlt_bool a b = false <-> b <= a.
Proof.
  rewrite <- not_true_iff_false, Qlt_bool_iff. split.
  - apply Qnot_lt_le.
  - intros Hle Hlt. exact (Qlt_not_le _ _ Hlt Hle).
Qed.

Lemma scan_results_eq (det : Detection2D)
    (rs : list ObjectHypothesisWithPose) (acc : Scan) :
  fold_left (scan_result det) rs acc
  = if existsb (fun result => (class_id (hypothesis result) =? "15")%string) rs
       && Qlt_bool (max_size_y acc) (size_y (bbox det))
    then mkScan true (size_y (bbox det)) (Some det)
    else acc.
Proof.
  revert acc. induction rs as [| r rs IH]; intros acc; [reflexivity |].
  cbn [fold_left existsb]. rewrite IH. unfold scan_result.
  destruct (class_id (hypothesis r) =? "15")%string; cbn [orb]; [| reflexivity].
  destruct (Qlt_bool (max_size_y acc) (size_y (bbox det))) eqn:Hlt.
  - cbn [max_size_y]. rewrite Qlt_bool_irrefl, andb_false_r. reflexivity.
  - rewrite Hlt, andb_false_r. reflexivity.
Qed.

Lemma scan_detection_eq (acc : Scan) (det : Detection2D) :
  scan_detection acc det
  = if is_person det && Qlt_bool (max_size_y acc) (size_y (bbox det))
    then mkScan true (size_y (bbox det)) (Some det)
    else acc.
Proof. apply scan_results_eq. Qed.

Lemma scan_selects_step (seen : list Detection2D) (acc : Scan)
    (det : Detection2D) :
  scan_selects seen acc -> scan_selects (seen ++ [det]) (scan_detection acc det).
Proof.
  intros Hacc. rewrite scan_detection_eq.
  destruct (is_person det) eqn:Hperson; cbn [andb].
  - destruct (Qlt_bool (max_size_y acc) (size_y (bbox det))) eqn:Hlt.
    + apply Qlt_bool_iff in Hlt. unfold scan_selects in *. cbn [detection
        person_detected max_size_y].
      destruct (detection acc) as [best |].
      * destruct Hacc as (_ & Hmax & Hpos & _ & before & later & -> & Hb & Hl).
        rewrite Hmax in Hlt.
        repeat split; try assumption.
        -- now apply Qlt_trans with (size_y (bbox best)).
        -- exists (before ++ best :: later), []. split; [reflexivity |].
           split; [| intros d []].
           intros d Hin Hd. apply in_app_or in Hin.
           destruct Hin as [Hin | [<- | Hin]].
           ++ apply Qlt_trans with (size_y (bbox best)); auto.
           ++ exact Hlt.
           ++ apply Qle_lt_trans with (size_y (bbox best)); auto.
      * destruct Hacc as (_ & Hmax & Hall). rewrite Hmax in Hlt.
        repeat split; try assumption.
        exists seen, []. split; [reflexivity |].
        split; [| intros d []].
        intros d Hin Hd. apply Qle_lt_trans with 0; auto.
    + apply Qlt_bool_false_iff in Hlt. unfold scan_selects in *.
      destruct (detection acc) as [best |].
      * destruct Hacc as (Hseen & Hmax & Hpos & Hbest & before & later & -> & Hb & Hl).
        rewrite Hmax in Hlt.
        repeat split; try assumption.
        exists before, (later ++ [det]).
        split; [now rewrite <- app_assoc |].
        split; [exact Hb |].
        intros d Hin Hd. apply in_app_or in Hin.
        destruct Hin as [Hin | [<- | []]]; auto.
      * destruct Hacc as (Hseen & Hmax & Hall). rewrite Hmax in Hlt.
        repeat split; try assumption.
        intros d Hin Hd. apply in_app_or in Hin.
        destruct Hin as [Hin | [<- | []]]; auto.
  - unfold scan_selects in *.
    destruct (detection acc) as [best |].
    + destruct Hacc as (Hseen & Hmax & Hpos & Hbest & before & later & -> & Hb & Hl).
      repeat split; try assumption.
      exists before, (later ++ [det]).
      split; [now rewrite <- app_assoc |].
      split; [exact Hb |].
      intros d Hin Hd. apply in_app_or in Hin.
      destruct Hin as [Hin | [<- | []]]; [auto | congruence].
    + destruct Hacc as (Hseen & Hmax & Hall).
      repeat split; try assumption.
      intros d Hin Hd. apply in_app_or in Hin.
      destruct Hin as [Hin | [<- | []]]; [auto | congruence].
Qed.

Lemma scan_selects_fold (rest seen : list Detection2D) (acc : Scan) :
  scan_selects seen acc ->
  scan_selects (seen ++ rest) (fold_left scan_detection rest acc).
Proof.
  revert seen acc. induction rest as [| det rest IH]; intros seen acc Hacc.
  - now rewrite app_nil_r.
  - cbn [fold_left].
    replace (seen ++ det :: rest) with ((seen ++ [det]) ++ rest)
      by now rewrite <- app_assoc.
    apply IH. now apply scan_selects_step.
Qed.

Lemma scan_frame_selects (msg : Detection2DArray) :
  scan_selects (detections msg) (scan_frame msg).
Proof.
  apply (scan_selects_fold (detections msg) [] scan_start).
  unfold scan_selects. cbn. repeat split. intros d [].
Qed.

(** *** The previous detection and the frames that set it *)

Lemma scan_frame_shows_person (msg : Detection2DArray) :
  person_detected (scan_frame msg) = shows_person msg.
Proof.
  pose proof (scan_frame_selects msg) as H. unfold scan_selects in H.
  unfold shows_person.
  destruct (detection (scan_frame msg)) as [best |].
  - destruct H as (Hseen & _ & Hpos & Hperson & before & later & Hsplit & _).
    rewrite Hseen. symmetry. apply existsb_exists. exists best.
    split; [rewrite Hsplit; apply in_elt |].
    rewrite Hperson. apply Qlt_bool_iff. exact Hpos.
  - destruct H as (Hseen & _ & Hall). rewrite Hseen. symmetry.
    apply not_true_is_false. intros Hex.
    apply existsb_exists in Hex. destruct Hex as (d & Hin & Hd).
    apply andb_true_iff in Hd. destruct Hd as [Hperson Hpos].
    apply Qlt_bool_iff in Hpos.
    exact (Qlt_not_le _ _ Hpos (Hall d Hin Hperson)).
Qed.

Lemma deliver_previous_tracks (p : Proc) (ev : Event) (k : nat) :
  previous_tracks p k ->
  previous_tracks (deliver p ev) (seen_since_red p ev k).
Proof.
  unfold previous_tracks. intros Hinv.
  destruct ev as [e | msg].
  - unfold seen_since_red. unfold deliver at 1 2.
    destruct (crashed p) as [x |] eqn:Hcrash;
      [now rewrite Nat.ltb_irrefl |].
    destruct (timer_cancelled (node p)); [now rewrite Nat.ltb_irrefl |].
    rewrite node_exec.
    assert (Hout : out (sys (exec (main_loop e) p))
                   = out (after (main_loop e) (sys p))).
    { unfold exec, after. now destruct (main_loop e (sys p)) as [[[] | x] s']. }
    rewrite Hout. unfold node in Hinv. destruct (sys p) as [n o].
    cbn [self out] in *.
    destruct (main_loop_red_entry e n o) as [[Hred Hprev] | [Hred Hprev]];
      rewrite Hred, Hprev.
    + assert (Hlt : (red_entries o <? S (red_entries o))%nat = true)
        by (apply Nat.ltb_lt; lia).
      rewrite Hlt. split; [congruence | lia].
    + now rewrite Nat.ltb_irrefl.
  - unfold seen_since_red, deliver.
    destruct (crashed p) as [x |] eqn:Hcrash; [exact Hinv |].
    rewrite node_exec. unfold node in Hinv. destruct (sys p) as [n o].
    cbn [self] in Hinv. unfold after. rewrite detection_callback_eq.
    rewrite <- scan_frame_shows_person.
    destruct (person_detected (scan_frame msg)) eqn:Hseen; [| exact Hinv].
    destruct (scan_frame_consistent msg Hseen) as [d Hsel]. rewrite Hsel.
    cbn [snd]. rewrite ingested_previous. split; [lia | discriminate].
Qed.

Lemma run_previous_tracks (evs : list Event) (p : Proc) (k : nat) :
  previous_tracks p k ->
  previous_tracks (run evs p) (people_since_red evs p k).
Proof.
  revert p k. induction evs as [| ev evs IH]; intros p k Hinv; [exact Hinv |].
  cbn [run fold_left people_since_red]. apply IH.
  now apply deliver_previous_tracks.
Qed.

Lemma boot_previous_tracks : previous_tracks boot 0.
Proof. unfold previous_tracks. cbn. split; [congruence | lia]. Qed.

(** C7 (as the code has it). In every process reachable from start-up, the
    stored previous detection is non-null only if at least one frame holding a
    class "15" detection of strictly positive height has arrived since the
    most recent entry into RED_LIGHT (since start-up when RED_LIGHT was never
    entered).  The phase itself need not be RED_LIGHT. *)
Theorem previous_detection_only_after_person (evs : list Event) :
  previous_detection (node (run evs boot)) <> None ->
  (0 < people_since_red evs boot 0)%nat.
Proof. apply (run_previous_tracks evs boot 0 boot_previous_tracks). Qed.

Lemma previous_detection_only_after_person_witness :
  previous_detection
    (node (run [tick_at 0 true;
                Detections (frame_of (person_at 100 100 50 80))] boot))
  = Some (person_at 100 100 50 80)
  /\ (0 < people_since_red
            [tick_at 0 true;
             Detections (frame_of (person_at 100 100 50 80))] boot 0)%nat.
Proof.
  split; [reflexivity |].
  apply (previous_detection_only_after_person
           [tick_at 0 true; Detections (frame_of (person_at 100 100 50 80))]).
  vm_compute. discriminate.
Defined.

(** The count at work: a person frame during the countdown is counted, a
    person of height zero is not, the entry into RED_LIGHT on the third tick
    resets the count and clears the baseline, and the next person frame is
    counted again. *)
Example people_since_red_resets :
  people_since_red
    [tick_at 0 true; Detections (frame_of (person_at 100 100 50 80))] boot 0
  = 1%nat
  /\ people_since_red
       [tick_at 0 true; Detections (frame_of (person_at 100 100 50 0))] boot 0
     = 0%nat
  /\ people_since_red
       [tick_at 0 true; Detections (frame_of (person_at 100 100 50 80));
        tick_at 100000000 true; tick_at 200000000 false] boot 0
     = 0%nat
  /\ previous_detection
       (node (run [tick_at 0 true;
                   Detections (frame_of (person_at 100 100 50 80));
                   tick_at 100000000 true; tick_at 200000000 false] boot))
     = None
  /\ people_since_red
       [tick_at 0 true; Detections (frame_of (person_at 100 100 50 80));
        tick_at 100000000 true; tick_at 200000000 false;
        Detections (frame_of (person_at 100 100 50 80))] boot 0
     = 1%nat.
Proof. vm_compute. repeat split. Qed.

(** C7, counterexample to "non-null only in RED_LIGHT": one frame with a
    person stores a previous detection while the phase is INSTRUCTIONS, and
    likewise while it is GREEN_LIGHT. *)
Lemma previous_detection_outside_red :
  state (node (run [Detections (frame_of (person_at 100 100 50 80))] boot))
  = "INSTRUCTIONS"
  /\ previous_detection
       (node (run [Detections (frame_of (person_at 100 100 50 80))] boot))
     = Some (person_at 100 100 50 80)
  /\ state (node (run [tick_at 0 true; tick_at 100000000 true;
                        tick_at 200000000 true;
                        Detections (frame_of (person_at 100 100 50 80))] boot))
     = GREEN_LIGHT
  /\ previous_detection
       (node (run [tick_at 0 true; tick_at 100000000 true;
                   tick_at 200000000 true;
                   Detections (frame_of (person_at 100 100 50 80))] boot))
     = Some (person_at 100 100 50 80).
Proof. repeat split. Qed.



(** X2. The scan reports a person exactly when the frame holds a detection
    with a class "15" hypothesis and a strictly positive [size_y]; a person
    box of height zero or less is never picked. *)
Theorem person_detected_iff (msg : Detection2DArray) :
  person_detected (scan_frame msg) = true
  <-> exists d, In d (detections msg) /\ is_person d = true /\
                0 < size_y (bbox d).
Proof.
  pose proof (scan_frame_selects msg) as H. unfold scan_selects in H.
  destruct (detection (scan_frame msg)) as [best |].
  - destruct H as (Hseen & _ & Hpos & Hperson & before & later & Hsplit & _).
    split; [| intros _; exact Hseen].
    intros _. exists best. repeat split; try assumption.
    rewrite Hsplit. apply in_elt.
  - destruct H as (Hseen & _ & Hall). rewrite Hseen.
    split; [discriminate |].
    intros (d & Hin & Hperson & Hpos). exfalso.
    exact (Qlt_not_le _ _ Hpos (Hall d Hin Hperson)).
Qed.

(** X3. A frame without any person of positive height (an empty frame
    included) is a no-op: [detection_callback] returns normally and leaves the
    node and the effect trace exactly as they were, stored detections
    included. *)
Theorem frame_without_person_is_ignored (msg : Detection2DArray) (s : Sys) :
  (forall d, In d (detections msg) -> is_person d = true ->
             size_y (bbox d) <= 0) ->
  detection_callback msg s = (Done tt, s).
Proof.
  intros Hnone. destruct s as [n o]. rewrite detection_callback_eq.
  destruct (person_detected (scan_frame msg)) eqn:Hseen; [| reflexivity].
  exfalso. pose proof (scan_frame_selects msg) as H. unfold scan_selects in H.
  destruct (detection (scan_frame msg)) as [best |].
  - destruct H as (_ & _ & Hpos & Hperson & before & later & Hsplit & _).
    apply (Qlt_not_le _ _ Hpos). apply Hnone; [| exact Hperson].
    rewrite Hsplit. apply in_elt.
  - destruct H as (Hfalse & _). congruence.
Qed.

Lemma frame_without_person_is_ignored_witness :
  detection_callback {| detections := [] |} init_sys = (Done tt, init_sys).
Proof.
  apply frame_without_person_is_ignored. intros d [].
Defined.

Lemma ingested_game_fields (curr : Detection2D) (n : Node) (o : list Effect) :
  game_fields (self (ingested curr n o)) = game_fields n.
Proof.
  unfold ingested.
  destruct (movement_seen n curr);
    destruct (Qle_bool (size_y_finish_line n) (size_y (bbox curr)));
    reflexivity.
Qed.

Lemma ingested_config (curr : Detection2D) (n : Node) (o : list Effect) :
  config (self (ingested curr n o)) = config n.
Proof.
  unfold ingested.
  destruct (movement_seen n curr);
    destruct (Qle_bool (size_y_finish_line n) (size_y (bbox curr)));
    reflexivity.
Qed.

Lemma detection_callback_done (msg : Detection2DArray) (s : Sys) :
  outcome (detection_callback msg) s = Done tt.
Proof.
  destruct s as [n o]. unfold outcome. rewrite detection_callback_eq.
  destruct (person_detected (scan_frame msg)) eqn:Hseen; [| reflexivity].
  destruct (scan_frame_consistent msg Hseen) as [d Hsel]. now rewrite Hsel.
Qed.

Lemma detection_callback_game_fields (msg : Detection2DArray) (s : Sys) :
  game_fields (self (after (detection_callback msg) s)) = game_fields (self s).
Proof.
  destruct s as [n o]. unfold after. rewrite detection_callback_eq.
  destruct (person_detected (scan_frame msg)); [| reflexivity].
  destruct (detection (scan_frame msg)); [| reflexivity].
  apply ingested_game_fields.
Qed.

Lemma detection_callback_config (msg : Detection2DArray) (s : Sys) :
  config (self (after (detection_callback msg) s)) = config (self s).
Proof.
  destruct s as [n o]. unfold after. rewrite detection_callback_eq.
  destruct (person_detected (scan_frame msg)); [| reflexivity].
  destruct (detection (scan_frame msg)); [| reflexivity].
  apply ingested_config.
Qed.

(** X4. [detection_callback] never raises, whatever the frame and the node;
    it leaves the phase, the game clock, the light timing, the game result,
    the timer and all tunables untouched, and emits nothing except at most one
    "Movement detected" log line. *)
Theorem detection_callback_only_touches_tracker
    (msg : Detection2DArray) (s : Sys) :
  outcome (detection_callback msg) s = Done tt /\
  game_fields (self (after (detection_callback msg) s)) = game_fields (self s) /\
  config (self (after (detection_callback msg) s)) = config (self s) /\
  (out (after (detection_callback msg) s) = out s \/
   exists dx dy dsx dsy,
     out (after (detection_callback msg) s)
     = out s ++ [Log (InfoMovementDetected dx dy dsx dsy)]).
Proof.
  split; [apply detection_callback_done |].
  split; [apply detection_callback_game_fields |].
  split; [apply detection_callback_config |].
  destruct s as [n o]. unfold after. rewrite detection_callback_eq.
  destruct (person_detected (scan_frame msg)); [| now left].
  destruct (detection (scan_frame msg)) as [curr |]; [| now left].
  unfold ingested. cbn [snd out].
  destruct (previous_detection n) as [prev |]; [| left; apply app_nil_r].
  destruct (movement_seen n curr); [| left; apply app_nil_r].
  right. now eexists _, _, _, _.
Qed.

(** X5. [detect_movement] does not depend on the order of its two
    detections: swapping previous and current gives the same answer and the
    same log line. *)
Theorem detect_movement_symmetric (a b : Detection2D) (s : Sys) :
  detect_movement a b s = detect_movement b a s.
Proof.
  destruct s as [n o]. rewrite !detect_movement_eq.
  unfold exceeds, delta_x, delta_y, delta_size_x, delta_size_y.
  rewrite (Qabs_Qminus (x (position (center (bbox b))))).
  rewrite (Qabs_Qminus (y (position (center (bbox b))))).
  rewrite (Qabs_Qminus (size_x (bbox b))).
  rewrite (Qabs_Qminus (size_y (bbox b))).
  reflexivity.
Qed.

Ltac tick_cases n :=
  unfold after; rewrite main_loop_eq;
  split_state n; handler_eqs;
  repeat (light_eqs;
          match goal with
          | |- context [match ?x with _ => _ end] => destruct x eqn:?
          end);
  light_eqs.

Lemma main_loop_config (e : Env) (s : Sys) :
  config (self (after (main_loop e) s)) = config (self s).
Proof. destruct s as [n o]. tick_cases n; reflexivity. Qed.

Lemma deliver_config (p : Proc) (ev : Event) :
  config (node (deliver p ev)) = config (node p).
Proof.
  unfold deliver. destruct (crashed p); [reflexivity |].
  destruct ev as [e | msg].
  - destruct (timer_cancelled (node p)); [reflexivity |].
    rewrite node_exec. apply main_loop_config.
  - rewrite node_exec. apply detection_callback_config.
Qed.

(** X6. No sequence of ticks and frames, from any process, changes a
    tunable: time limit, movement threshold, finish-line height, rotation
    speed and the two random-interval bounds keep their values. *)
Theorem config_never_modified (evs : list Event) (p : Proc) :
  config (node (run evs p)) = config (node p).
Proof.
  revert p. induction evs as [| ev evs IH]; intros p; [reflexivity |].
  cbn [run fold_left]. fold (run evs (deliver p ev)).
  rewrite IH. apply deliver_config.
Qed.

Lemma phase_step_refl (s : string) : phase_step s s = true.
Proof. unfold phase_step. now rewrite String.eqb_refl. Qed.

Lemma main_loop_phase_step (e : Env) (s : Sys) :
  phase_step (state (self s)) (state (self (after (main_loop e) s))) = true.
Proof.
  destruct s as [n o]. cbn [self]. tick_cases n; tick_leaf;
    first [ apply phase_step_refl
          | match goal with H : state _ = _ |- _ => rewrite H end;
            reflexivity ].
Qed.

Lemma deliver_phase_step (p : Proc) (ev : Event) :
  phase_step (state (node p)) (state (node (deliver p ev))) = true.
Proof.
  unfold deliver. destruct (crashed p); [apply phase_step_refl |].
  destruct ev as [e | msg].
  - destruct (timer_cancelled (node p)); [apply phase_step_refl |].
    rewrite node_exec. apply main_loop_phase_step.
  - rewrite node_exec, detection_callback_state. apply phase_step_refl.
Qed.

(** X7. One event either keeps the phase or moves it along one edge of
    INSTRUCTIONS -> COUNTDOWN -> INIT -> GREEN_LIGHT | RED_LIGHT,
    GREEN_LIGHT -> RED_LIGHT | GAME_OVER, RED_LIGHT -> GREEN_LIGHT | GAME_OVER;
    no other change of phase occurs, from any process and for any event. *)
Theorem every_event_follows_the_timeline (p : Proc) (ev : Event) :
  phase_step (state (node p)) (state (node (deliver p ev))) = true.
Proof. apply deliver_phase_step. Qed.

Lemma phase_step_rank (s s' : string) :
  phase_step s s' = true -> (phase_rank s <= phase_rank s')%nat.
Proof.
  unfold phase_step.
  rewrite !orb_true_iff, !andb_true_iff, !orb_true_iff, !String.eqb_eq.
  intros H.
  repeat match goal with
         | H : _ \/ _ |- _ => destruct H as [H | H]
         | H : _ /\ _ |- _ => destruct H
         end; subst; cbn; lia.
Qed.

(** X8. Along any sequence of events the phase never moves back on the
    timeline (instructions, countdown, init, a light, game over): the game
    never restarts and never returns from a light to the prelude. *)
Theorem phase_never_goes_back (evs : list Event) (p : Proc) :
  (phase_rank (state (node p)) <= phase_rank (state (node (run evs p))))%nat.
Proof.
  revert p. induction evs as [| ev evs IH]; intros p; [cbn; lia |].
  cbn [run fold_left]. fold (run evs (deliver p ev)).
  apply Nat.le_trans with (phase_rank (state (node (deliver p ev)))).
  - apply phase_step_rank, deliver_phase_step.
  - apply IH.
Qed.

Lemma out_exec (m : M unit) (p : Proc) :
  out (sys (exec m p)) = out (after m (sys p)).
Proof.
  unfold exec, after. now destruct (m (sys p)) as [[[] | x] s'].
Qed.

Lemma detection_callback_timer (msg : Detection2DArray) (s : Sys) :
  timer_cancelled (self (after (detection_callback msg) s))
  = timer_cancelled (self s).
Proof.
  pose proof (detection_callback_game_fields msg s) as H.
  unfold game_fields in H. congruence.
Qed.

(** *** GAME_OVER is reported once *)

Lemma game_over_reports_app (a b : list Effect) :
  game_over_reports (a ++ b)
  = (game_over_reports a + game_over_reports b)%nat.
Proof. unfold game_over_reports. now rewrite filter_app, length_app. Qed.

Lemma game_over_reports_spin (speed : Q) (k : nat) :
  game_over_reports (spin_trace speed k) = 0%nat.
Proof.
  unfold spin_trace. induction k as [| k IH]; [reflexivity |].
  cbn [repeat concat]. rewrite game_over_reports_app, IH. reflexivity.
Qed.

Lemma game_over_reports_rotation (speed : Q) (k : nat) :
  game_over_reports (rotation_trace speed k) = 0%nat.
Proof.
  unfold rotation_trace.
  rewrite game_over_reports_app, game_over_reports_spin. reflexivity.
Qed.

Lemma detection_callback_reports (msg : Detection2DArray) (s : Sys) :
  game_over_reports (out (after (detection_callback msg) s))
  = game_over_reports (out s).
Proof.
  destruct s as [n o]. unfold after. rewrite detection_callback_eq.
  destruct (person_detected (scan_frame msg)); [| reflexivity].
  destruct (detection (scan_frame msg)) as [curr |]; [| reflexivity].
  unfold ingested. cbn [snd out]. rewrite game_over_reports_app.
  destruct (previous_detection n); [destruct (movement_seen n curr) |];
    cbn; lia.
Qed.

Ltac reports_leaf :=
  cbn [snd fst self out];
  unfold timed_out, finished, eliminated, ticked, lit;
  cbn [self out timer_cancelled with_previous_detection with_player_moved
       with_game_result with_state with_elapsed_time with_light_end_time
       with_current_light_duration with_game_start_time with_timer_cancelled];
  rewrite ?game_over_reports_app, ?game_over_reports_rotation;
  cbn [game_over_reports filter length instructions_trace
       countdown_trace flat_map instructions app String.eqb Ascii.eqb Bool.eqb
       RED_LIGHT GREEN_LIGHT GAME_OVER Nat.b2n].

Lemma main_loop_reports (e : Env) (n : Node) (o : list Effect) :
  timer_cancelled n = false ->
  game_over_reports o = 0%nat ->
  game_over_reports (out (after (main_loop e) (mkSys n o)))
  = Nat.b2n (timer_cancelled (self (after (main_loop e) (mkSys n o)))).
Proof.
  intros Htimer Hnone. tick_cases n; reports_leaf;
    rewrite ?Htimer, ?Hnone; reflexivity.
Qed.

Lemma deliver_reports (p : Proc) (ev : Event) :
  game_over_reports (out (sys p)) = Nat.b2n (timer_cancelled (node p)) ->
  game_over_reports (out (sys (deliver p ev)))
  = Nat.b2n (timer_cancelled (node (deliver p ev))).
Proof.
  intros Hinv. unfold deliver. destruct (crashed p); [exact Hinv |].
  destruct ev as [e | msg].
  - destruct (timer_cancelled (node p)) eqn:Htimer;
      [now rewrite Htimer |].
    rewrite node_exec, out_exec. unfold node in Htimer.
    destruct (sys p) as [n o]. now apply main_loop_reports.
  - rewrite node_exec, out_exec, detection_callback_reports,
      detection_callback_timer. exact Hinv.
Qed.

(** X9. In every process reachable from start-up GAME_OVER has been
    published once if the timer is cancelled and not at all otherwise; so it
    is published at most once. *)
Theorem game_over_reported_once (evs : list Event) :
  game_over_reports (out (sys (run evs boot)))
  = Nat.b2n (timer_cancelled (node (run evs boot)))
  /\ (game_over_reports (out (sys (run evs boot))) <= 1)%nat.
Proof.
  assert (H : forall p,
             game_over_reports (out (sys p)) = Nat.b2n (timer_cancelled (node p)) ->
             game_over_reports (out (sys (run evs p)))
             = Nat.b2n (timer_cancelled (node (run evs p)))).
  { induction evs as [| ev evs IH]; intros p Hinv; [exact Hinv |].
    cbn [run fold_left]. apply IH. now apply deliver_reports. }
  specialize (H boot eq_refl). split; [exact H |].
  rewrite H. destruct (timer_cancelled (node (run evs boot))); cbn; lia.
Qed.

(** *** The published phase *)

Lemma last_published_spin (speed : Q) (k : nat) :
  last_published (spin_trace speed k) = None.
Proof.
  unfold spin_trace. induction k as [| k IH]; [reflexivity |].
  cbn [repeat concat]. rewrite last_published_app, IH. reflexivity.
Qed.

Lemma last_published_rotation (speed : Q) (k : nat) :
  last_published (rotation_trace speed k) = None.
Proof.
  unfold rotation_trace. rewrite last_published_app. cbn.
  apply last_published_spin.
Qed.

Lemma detection_callback_published (msg : Detection2DArray) (s : Sys) :
  last_published (out (after (detection_callback msg) s))
  = last_published (out s).
Proof.
  destruct s as [n o]. unfold after. rewrite detection_callback_eq.
  destruct (person_detected (scan_frame msg)); [| reflexivity].
  destruct (detection (scan_frame msg)) as [curr |]; [| reflexivity].
  unfold ingested. cbn [snd out]. rewrite last_published_app.
  destruct (previous_detection n); [destruct (movement_seen n curr) |];
    reflexivity.
Qed.

Ltac published_leaf :=
  cbn [snd fst self out];
  unfold timed_out, finished, eliminated, ticked, lit;
  cbn [self out state timer_cancelled with_previous_detection
       with_player_moved with_game_result with_state with_elapsed_time
       with_light_end_time with_current_light_duration with_game_start_time
       with_timer_cancelled];
  rewrite ?last_published_app, ?last_published_rotation;
  cbn [last_published fold_left instructions_trace
       countdown_trace flat_map instructions app].

Lemma main_loop_published (e : Env) (n : Node) (o : list Effect) :
  timer_cancelled n = false ->
  published_in_sync (mkSys n o) ->
  published_in_sync (after (main_loop e) (mkSys n o)).
Proof.
  unfold published_in_sync. cbn [self out].
  intros Htimer (Hlight & Hprelude & _).
  tick_cases n; published_leaf.
  all: try match goal with H : state _ = _ |- _ => rewrite H in * end.
  all: split; [| split]; intros H.
  all: try (rewrite Htimer in H; discriminate H).
  all: try (repeat match goal with
                   | H : _ \/ _ |- _ => destruct H as [H | H]
                   end; discriminate H).
  all: try reflexivity.
  all: auto.
Qed.

Lemma deliver_published (p : Proc) (ev : Event) :
  published_in_sync (sys p) -> published_in_sync (sys (deliver p ev)).
Proof.
  intros Hinv. unfold deliver. destruct (crashed p); [exact Hinv |].
  destruct ev as [e | msg].
  - destruct (timer_cancelled (node p)) eqn:Htimer; [exact Hinv |].
    assert (Hsys : sys (exec (main_loop e) p) = after (main_loop e) (sys p)).
    { unfold exec, after. now destruct (main_loop e (sys p)) as [[[] | x] s']. }
    rewrite Hsys. unfold node in Htimer. destruct (sys p) as [n o].
    now apply main_loop_published.
  - assert (Hsys : sys (exec (detection_callback msg) p)
                   = after (detection_callback msg) (sys p)).
    { unfold exec, after.
      now destruct (detection_callback msg (sys p)) as [[[] | x] s']. }
    rewrite Hsys. unfold published_in_sync in *.
    rewrite detection_callback_published, detection_callback_state,
      detection_callback_timer. exact Hinv.
Qed.

(** X10. In every process reachable from start-up the last phase published
    on [game_state] is the current phase while a light is on, nothing has been
    published before the first light, and the last publication is GAME_OVER
    once the timer is cancelled. *)
Theorem published_phase_in_sync (evs : list Event) :
  (state (node (run evs boot)) = GREEN_LIGHT
   \/ state (node (run evs boot)) = RED_LIGHT ->
   last_published (out (sys (run evs boot)))
   = Some (state (node (run evs boot)))) /\
  (state (node (run evs boot)) = "INSTRUCTIONS"
   \/ state (node (run evs boot)) = "COUNTDOWN"
   \/ state (node (run evs boot)) = "INIT" ->
   last_published (out (sys (run evs boot))) = None) /\
  (timer_cancelled (node (run evs boot)) = true ->
   last_published (out (sys (run evs boot))) = Some GAME_OVER).
Proof.
  assert (H : forall p, published_in_sync (sys p) ->
                        published_in_sync (sys (run evs p))).
  { induction evs as [| ev evs IH]; intros p Hinv; [exact Hinv |].
    cbn [run fold_left]. apply IH. now apply deliver_published. }
  apply (H boot). unfold published_in_sync. cbn.
  split; [intros [H0 | H0]; discriminate H0 |].
  split; [reflexivity | discriminate].
Qed.

(** *** The commanded velocity *)

Lemma last_velocity_app (a b : list Effect) :
  last_velocity (a ++ b)
  = match last_velocity b with
    | Some v => Some v
    | None => last_velocity a
    end.
Proof.
  unfold last_velocity. rewrite fold_left_app.
  generalize (fold_left
                (fun acc x => match x with PublishVel v => Some v
                                      | _ => acc end) a None).
  induction b as [| x b IH]; intros acc; [reflexivity |].
  cbn [fold_left]. rewrite IH. rewrite (IH (match x with
                                            | PublishVel v => Some v
                                            | _ => None
                                            end)).
  destruct x;
    try (destruct (fold_left
                     (fun acc x => match x with PublishVel v => Some v
                                           | _ => acc end) b None));
    reflexivity.
Qed.

Lemma last_velocity_rotation (speed : Q) (k : nat) :
  last_velocity (rotation_trace speed k) = Some 0.
Proof. unfold rotation_trace. now rewrite last_velocity_app. Qed.

Lemma detection_callback_velocity (msg : Detection2DArray) (s : Sys) :
  last_velocity (out (after (detection_callback msg) s))
  = last_velocity (out s).
Proof.
  destruct s as [n o]. unfold after. rewrite detection_callback_eq.
  destruct (person_detected (scan_frame msg)); [| reflexivity].
  destruct (detection (scan_frame msg)) as [curr |]; [| reflexivity].
  unfold ingested. cbn [snd out]. rewrite last_velocity_app.
  destruct (previous_detection n); [destruct (movement_seen n curr) |];
    reflexivity.
Qed.

Ltac velocity_leaf :=
  cbn [snd fst self out];
  unfold timed_out, finished, eliminated, ticked, lit;
  cbn [self out];
  rewrite ?last_velocity_app, ?last_velocity_rotation;
  cbn [last_velocity fold_left instructions_trace
       countdown_trace flat_map instructions app].

Lemma main_loop_at_rest (e : Env) (n : Node) (o : list Effect) :
  at_rest o -> at_rest (out (after (main_loop e) (mkSys n o))).
Proof.
  unfold at_rest. intros Hrest.
  tick_cases n; velocity_leaf; first [exact Hrest | now right].
Qed.

Lemma deliver_at_rest (p : Proc) (ev : Event) :
  at_rest (out (sys p)) -> at_rest (out (sys (deliver p ev))).
Proof.
  intros Hinv. unfold deliver. destruct (crashed p); [exact Hinv |].
  destruct ev as [e | msg].
  - destruct (timer_cancelled (node p)); [exact Hinv |].
    rewrite out_exec. destruct (sys p) as [n o].
    now apply main_loop_at_rest.
  - rewrite out_exec. unfold at_rest in *.
    now rewrite detection_callback_velocity.
Qed.

(** X11. In every process reachable from start-up, between two callbacks the
    robot is not left turning: either no velocity was ever commanded or the
    last command on [cmd_vel] is a zero angular velocity. *)
Theorem robot_at_rest_between_callbacks (evs : list Event) :
  last_velocity (out (sys (run evs boot))) = None
  \/ last_velocity (out (sys (run evs boot))) = Some 0.
Proof.
  assert (H : forall p, at_rest (out (sys p)) ->
                        at_rest (out (sys (run evs p)))).
  { induction evs as [| ev evs IH]; intros p Hinv; [exact Hinv |].
    cbn [run fold_left]. apply IH. now apply deliver_at_rest. }
  apply (H boot). now left.
Qed.

(** *** Start-up *)

Lemma deliver_tick (p : Proc) (e : Env) :
  crashed p = None ->
  timer_cancelled (node p) = false ->
  deliver p (Tick e)
  = mkProc (after (main_loop e) (sys p))
           (crash_of (outcome (main_loop e) (sys p))).
Proof.
  intros Halive Htimer. unfold deliver. rewrite Halive, Htimer.
  apply exec_eq.
Qed.

Lemma deliver_frame (p : Proc) (msg : Detection2DArray) :
  crashed p = None ->
  deliver p (Detections msg)
  = mkProc (after (detection_callback msg) (sys p)) None.
Proof.
  intros Halive. unfold deliver. rewrite Halive, exec_eq.
  now rewrite detection_callback_done.
Qed.

Lemma instructions_tick (p : Proc) (e : Env) :
  crashed p = None ->
  timer_cancelled (node p) = false ->
  state (node p) = "INSTRUCTIONS" ->
  Qeq_bool (rotation_speed (node p)) 0 = false ->
  crashed (deliver p (Tick e)) = None /\
  node (deliver p (Tick e)) = with_state "COUNTDOWN" (node p).
Proof.
  intros Halive Htimer Hst Hspeed. rewrite deliver_tick by assumption.
  unfold node in *. destruct (sys p) as [n o]. cbn [self] in *.
  unfold after, outcome. cbn [sys crashed].
  rewrite main_loop_eq, Hst. cbn [String.eqb Ascii.eqb Bool.eqb].
  rewrite instructions_state_eq, Hspeed. split; reflexivity.
Qed.

Lemma countdown_tick (p : Proc) (e : Env) :
  crashed p = None ->
  timer_cancelled (node p) = false ->
  state (node p) = "COUNTDOWN" ->
  crashed (deliver p (Tick e)) = None /\
  node (deliver p (Tick e)) = with_state "INIT" (node p).
Proof.
  intros Halive Htimer Hst. rewrite deliver_tick by assumption.
  unfold node in *. destruct (sys p) as [n o]. cbn [self] in *.
  unfold after, outcome. cbn [sys crashed].
  rewrite main_loop_eq, Hst. cbn [String.eqb Ascii.eqb Bool.eqb].
  rewrite countdown_state_eq. split; reflexivity.
Qed.

Lemma init_tick (p : Proc) (e : Env) :
  crashed p = None ->
  timer_cancelled (node p) = false ->
  state (node p) = "INIT" ->
  crashed (deliver p (Tick e)) = None /\
  node (deliver p (Tick e))
  = (if coin e then fun n => n
     else fun n => with_player_moved false (with_previous_detection None n))
      (lit (if coin e then GREEN_LIGHT else RED_LIGHT) e
         (with_elapsed_time 0
            (with_game_start_time (Some (clock_now e)) (node p)))).
Proof.
  intros Halive Htimer Hst. rewrite deliver_tick by assumption.
  unfold node in *. destruct (sys p) as [n o]. cbn [self] in *.
  unfold after, outcome. cbn [sys crashed].
  rewrite main_loop_eq, Hst. cbn [String.eqb Ascii.eqb Bool.eqb].
  rewrite init_state_eq, start_random_light_eq.
  cbn [state with_elapsed_time with_game_start_time]. rewrite Hst.
  change ("INIT" =? GREEN_LIGHT)%string with false. cbv iota.
  destruct (coin e); light_eqs; split; reflexivity.
Qed.

(** X12. From start-up the first three ticks, whatever the clock and the
    random draws, run the instructions, the countdown and the init step
    without raising and leave the node in the light the third tick's coin
    picks, with the game clock started at that tick's first clock reading,
    elapsed time 0, a deadline for the light, no movement flag, no stored
    previous detection and no result. *)
Theorem startup_reaches_first_light (e1 e2 e3 : Env) :
  crashed (run [Tick e1; Tick e2; Tick e3] boot) = None /\
  state (node (run [Tick e1; Tick e2; Tick e3] boot))
  = (if coin e3 then GREEN_LIGHT else RED_LIGHT) /\
  game_start_time (node (run [Tick e1; Tick e2; Tick e3] boot))
  = Some (clock_now e3) /\
  elapsed_time (node (run [Tick e1; Tick e2; Tick e3] boot)) = 0 /\
  (exists t_end,
     light_end_time (node (run [Tick e1; Tick e2; Tick e3] boot))
     = Some t_end) /\
  player_moved (node (run [Tick e1; Tick e2; Tick e3] boot)) = false /\
  previous_detection (node (run [Tick e1; Tick e2; Tick e3] boot)) = None /\
  game_result (node (run [Tick e1; Tick e2; Tick e3] boot)) = None.
Proof.
  unfold run. cbn [fold_left].
  destruct (instructions_tick boot e1 eq_refl eq_refl eq_refl eq_refl)
    as [Halive1 Hnode1].
  set (p1 := deliver boot (Tick e1)) in *.
  assert (Htimer1 : timer_cancelled (node p1) = false) by now rewrite Hnode1.
  assert (Hstate1 : state (node p1) = "COUNTDOWN") by now rewrite Hnode1.
  destruct (countdown_tick p1 e2 Halive1 Htimer1 Hstate1) as [Halive2 Hnode2].
  set (p2 := deliver p1 (Tick e2)) in *.
  assert (Htimer2 : timer_cancelled (node p2) = false)
    by now rewrite Hnode2, Hnode1.
  assert (Hstate2 : state (node p2) = "INIT") by now rewrite Hnode2.
  destruct (init_tick p2 e3 Halive2 Htimer2 Hstate2) as [Halive3 Hnode3].
  rewrite Hnode3, Hnode2, Hnode1. split; [exact Halive3 |].
  destruct (coin e3); repeat split; eexists; reflexivity.
Qed.

(** *** Frames between two ticks *)

Lemma ingested_player_moved_kept (curr : Detection2D) (n : Node)
    (o : list Effect) :
  player_moved n = true -> player_moved (self (ingested curr n o)) = true.
Proof.
  intros H. rewrite ingested_player_moved, H. apply orb_true_r.
Qed.

Lemma detection_callback_player_moved_kept (msg : Detection2DArray) (s : Sys) :
  player_moved (self s) = true ->
  player_moved (self (after (detection_callback msg) s)) = true.
Proof.
  destruct s as [n o]. cbn [self]. intros H. unfold after.
  rewrite detection_callback_eq.
  destruct (person_detected (scan_frame msg)); [| exact H].
  destruct (detection (scan_frame msg)); [| exact H].
  now apply ingested_player_moved_kept.
Qed.

(** Frames alone leave a live process live, and keep the game fields, the
    tunables and both flags once set. *)
Lemma frames_keep_game (frames : list Detection2DArray) (p : Proc) :
  crashed p = None ->
  crashed (run (map Detections frames) p) = None /\
  game_fields (node (run (map Detections frames) p)) = game_fields (node p) /\
  config (node (run (map Detections frames) p)) = config (node p) /\
  (player_moved (node p) = true ->
   player_moved (node (run (map Detections frames) p)) = true) /\
  (player_reached_finish_line (node p) = true ->
   player_reached_finish_line (node (run (map Detections frames) p)) = true).
Proof.
  revert p. induction frames as [| msg frames IH]; intros p Halive.
  - repeat split; auto.
  - change (run (map Detections (msg :: frames)) p)
      with (run (map Detections frames) (deliver p (Detections msg))).
    assert (Hp1 : deliver p (Detections msg)
                  = mkProc (after (detection_callback msg) (sys p)) None)
      by now apply deliver_frame.
    destruct (IH (deliver p (Detections msg))) as (Hc & Hg & Hcfg & Hm & Hf);
      [now rewrite Hp1 |].
    split; [exact Hc |].
    split; [rewrite Hg, Hp1; apply detection_callback_game_fields |].
    split; [rewrite Hcfg, Hp1; apply detection_callback_config |].
    split; intros H.
    + apply Hm. rewrite Hp1.
      now apply detection_callback_player_moved_kept.
    + apply Hf. now apply deliver_finish_flag.
Qed.

(** X13. Once the movement flag is set in RED_LIGHT, no further frame clears
    it and the next tick always ends the game with LOSE, before or after the
    time limit (for a live process with an active timer, a started game clock
    and a non-zero rotation speed). *)
Theorem movement_flag_ends_game
    (p : Proc) (frames : list Detection2DArray) (e : Env) (t0 : Z) :
  crashed p = None ->
  timer_cancelled (node p) = false ->
  state (node p) = RED_LIGHT ->
  player_moved (node p) = true ->
  game_start_time (node p) = Some t0 ->
  Qeq_bool (rotation_speed (node p)) 0 = false ->
  crashed (deliver (run (map Detections frames) p) (Tick e)) = None /\
  state (node (deliver (run (map Detections frames) p) (Tick e))) = GAME_OVER /\
  game_result (node (deliver (run (map Detections frames) p) (Tick e)))
  = Some LOSE.
Proof.
  intros Halive Htimer Hred Hmoved Hstart Hspeed.
  destruct (frames_keep_game frames p Halive) as (Hc & Hg & Hcfg & Hm & _).
  specialize (Hm Hmoved).
  set (q := run (map Detections frames) p) in *.
  unfold game_fields in Hg. unfold config in Hcfg.
  assert (Htimer' : timer_cancelled (node q) = false) by congruence.
  assert (Hred' : state (node q) = RED_LIGHT) by congruence.
  assert (Hstart' : game_start_time (node q) = Some t0) by congruence.
  assert (Hspeed' : Qeq_bool (rotation_speed (node q)) 0 = false)
    by (replace (rotation_speed (node q)) with (rotation_speed (node p))
          by congruence; exact Hspeed).
  rewrite deliver_tick by assumption.
  unfold node in *. destruct (sys q) as [n o]. cbn [self sys crashed] in *.
  unfold after, outcome. rewrite main_loop_eq, Hred'.
  change (RED_LIGHT =? "INSTRUCTIONS")%string with false.
  change (RED_LIGHT =? "COUNTDOWN")%string with false.
  change (RED_LIGHT =? "INIT")%string with false.
  change (RED_LIGHT =? GREEN_LIGHT)%string with false.
  change (RED_LIGHT =? RED_LIGHT)%string with true. cbv iota.
  rewrite red_light_state_eq, Hstart', Hm, Hspeed'.
  destruct (Qle_bool (time_limit n) (seconds_between (clock_now e) t0));
    repeat split.
Qed.

(** X14. Once the finish-line flag is set in GREEN_LIGHT, no further frame
    clears it and the next tick always ends the game: with WIN when the
    elapsed time is below the time limit, with LOSE when it has reached
    it. *)
Theorem finish_flag_ends_game
    (p : Proc) (frames : list Detection2DArray) (e : Env) (t0 : Z) :
  crashed p = None ->
  timer_cancelled (node p) = false ->
  state (node p) = GREEN_LIGHT ->
  player_reached_finish_line (node p) = true ->
  game_start_time (node p) = Some t0 ->
  crashed (deliver (run (map Detections frames) p) (Tick e)) = None /\
  state (node (deliver (run (map Detections frames) p) (Tick e))) = GAME_OVER /\
  game_result (node (deliver (run (map Detections frames) p) (Tick e)))
  = Some (if Qle_bool (time_limit (node p)) (seconds_between (clock_now e) t0)
          then LOSE else WIN).
Proof.
  intros Halive Htimer Hgreen Hflag Hstart.
  destruct (frames_keep_game frames p Halive) as (Hc & Hg & Hcfg & _ & Hf).
  specialize (Hf Hflag).
  set (q := run (map Detections frames) p) in *.
  unfold game_fields in Hg. unfold config in Hcfg.
  assert (Htimer' : timer_cancelled (node q) = false) by congruence.
  assert (Hgreen' : state (node q) = GREEN_LIGHT) by congruence.
  assert (Hstart' : game_start_time (node q) = Some t0) by congruence.
  assert (Hlimit : time_limit (node q) = time_limit (node p)) by congruence.
  rewrite deliver_tick by assumption.
  unfold node in *. destruct (sys q) as [n o]. cbn [self sys crashed] in *.
  unfold after, outcome. rewrite main_loop_eq, Hgreen'.
  change (GREEN_LIGHT =? "INSTRUCTIONS")%string with false.
  change (GREEN_LIGHT =? "COUNTDOWN")%string with false.
  change (GREEN_LIGHT =? "INIT")%string with false.
  change (GREEN_LIGHT =? GREEN_LIGHT)%string with true. cbv iota.
  rewrite green_light_state_eq, Hstart', Hf, Hlimit.
  destruct (Qle_bool (time_limit (self (sys p)))
                     (seconds_between (clock_now e) t0));
    repeat split.
Qed.

(** X15. The first frame ingested after [start_red_light] never sets the
    movement flag, whatever was stored before the red light and whatever the
    frame holds: there is no baseline to compare it with. *)
Theorem first_frame_after_red_entry_is_safe
    (e : Env) (s : Sys) (msg : Detection2DArray) :
  player_moved
    (self (after (detection_callback msg) (after (start_red_light e) s)))
  = false.
Proof.
  destruct s as [n o]. unfold after at 2. rewrite start_red_light_eq.
  cbn [snd]. unfold after. rewrite detection_callback_eq.
  destruct (person_detected (scan_frame msg)); [| reflexivity].
  destruct (detection (scan_frame msg)) as [curr |]; [| reflexivity].
  cbn [snd]. rewrite ingested_player_moved. unfold movement_seen.
  cbn [previous_detection player_moved with_player_moved
       with_previous_detection]. now rewrite andb_false_r.
Qed.

(** *** Light durations *)

Lemma random_uniform_bounds (e : Env) (lo hi : Q) :
  0 <= rand e -> rand e <= 1 -> lo <= hi ->
  lo <= random_uniform e lo hi /\ random_uniform e lo hi <= hi.
Proof.
  intros H0 H1 Hle. unfold random_uniform.
  assert (Hd : 0 <= hi - lo).
  { unfold Qminus. now rewrite <- Qle_minus_iff. }
  split.
  - apply Qle_trans with (lo + 0); [rewrite Qplus_0_r; apply Qle_refl |].
    apply Qplus_le_compat; [apply Qle_refl |].
    now apply Qmult_le_0_compat.
  - apply Qle_trans with (lo + 1 * (hi - lo)).
    + apply Qplus_le_compat; [apply Qle_refl |].
      rewrite (Qmult_comm (hi - lo)). now apply Qmult_le_compat_r.
    + assert (Heq : lo + 1 * (hi - lo) == hi) by ring.
      rewrite Heq. apply Qle_refl.
Qed.

Lemma duration_ns_nonneg (a : Q) :
  0 <= a -> duration_ns a = Qfloor (a * 1000000000).
Proof.
  intros Ha. unfold duration_ns.
  assert (H : Qle_bool 0 (a * 1000000000) = true).
  { apply Qle_bool_iff. apply Qmult_le_0_compat; [exact Ha | discriminate]. }
  now rewrite H.
Qed.

Lemma duration_ns_monotone (a b : Q) :
  0 <= a -> a <= b -> (duration_ns a <= duration_ns b)%Z.
Proof.
  intros Ha Hab.
  rewrite !duration_ns_nonneg by (try assumption; now apply Qle_trans with a).
  apply Qfloor_resp_le. apply Qmult_le_compat_r; [exact Hab | discriminate].
Qed.

Lemma lit_timed (colour : string) (e : Env) (n : Node) :
  0 <= rand e -> rand e <= 1 ->
  0 <= random_interval_min n -> random_interval_min n <= random_interval_max n ->
  random_interval_min n <= current_light_duration (lit colour e n) /\
  current_light_duration (lit colour e n) <= random_interval_max n /\
  exists t_end : Z,
    light_end_time (lit colour e n) = Some t_end /\
    (clock_light e + duration_ns (random_interval_min n) <= t_end)%Z /\
    (t_end <= clock_light e + duration_ns (random_interval_max n))%Z.
Proof.
  intros H0 H1 Hmin Hle.
  destruct (random_uniform_bounds e _ _ H0 H1 Hle) as [Hlo Hhi].
  unfold lit. cbn [current_light_duration light_end_time with_light_end_time
                   with_current_light_duration with_state].
  split; [exact Hlo |]. split; [exact Hhi |].
  eexists. split; [reflexivity |].
  split; apply Z.add_le_mono_l; apply duration_ns_monotone; auto.
  now apply Qle_trans with (random_interval_min n).
Qed.

(** X16. With [random()] in [0, 1] and 0 <= random_interval_min <=
    random_interval_max, both [start_green_light] and [start_red_light] set a
    duration within the two bounds and a deadline that lies between the
    clock reading plus the lower bound and the clock reading plus the upper
    bound (in whole nanoseconds). *)
Theorem light_duration_within_bounds (e : Env) (s : Sys) :
  0 <= rand e -> rand e <= 1 ->
  0 <= random_interval_min (self s) ->
  random_interval_min (self s) <= random_interval_max (self s) ->
  light_timed e s (after (start_green_light e) s) /\
  light_timed e s (after (start_red_light e) s).
Proof.
  intros H0 H1 Hmin Hle. destruct s as [n o]. cbn [self] in *.
  unfold light_timed, after. light_eqs. cbn [snd self].
  split; [now apply lit_timed |].
  exact (lit_timed RED_LIGHT e n H0 H1 Hmin Hle).
Qed.

Lemma light_duration_within_bounds_witness :
  light_timed (mkEnv 0 5 true 0.5 2) init_sys
    (after (start_green_light (mkEnv 0 5 true 0.5 2)) init_sys)
  /\ light_timed (mkEnv 0 5 true 0.5 2) init_sys
       (after (start_red_light (mkEnv 0 5 true 0.5 2)) init_sys).
Proof.
  apply light_duration_within_bounds; discriminate.
Defined.

(** *** The game clock *)

Lemma main_loop_game_start_time (e : Env) (s : Sys) :
  state (self s) <> "INIT" ->
  game_start_time (self (after (main_loop e) s)) = game_start_time (self s).
Proof.
  destruct s as [n o]. cbn [self]. intros Hne.
  tick_cases n; try contradiction; try reflexivity.
  all: cbn [snd self]; unfold timed_out, finished, eliminated, ticked, lit;
    cbn [game_start_time with_previous_detection with_player_moved
         with_game_result with_state with_elapsed_time with_light_end_time
         with_current_light_duration self]; try congruence.
Qed.

(** X17. Only a tick in INIT assigns [game_start_time]: from any process in
    another phase, no event changes it. *)
Theorem game_clock_started_only_by_init (p : Proc) (ev : Event) :
  state (node p) <> "INIT" ->
  game_start_time (node (deliver p ev)) = game_start_time (node p).
Proof.
  intros Hne. unfold deliver. destruct (crashed p); [reflexivity |].
  destruct ev as [e | msg].
  - destruct (timer_cancelled (node p)); [reflexivity |].
    rewrite node_exec. now apply main_loop_game_start_time.
  - rewrite node_exec.
    pose proof (detection_callback_game_fields msg (sys p)) as H.
    unfold game_fields in H. unfold node. congruence.
Qed.

Lemma game_clock_started_only_by_init_witness :
  game_start_time (node (deliver boot (tick_at 0 true)))
  = game_start_time (node boot).
Proof.
  apply game_clock_started_only_by_init. discriminate.
Defined.

Lemma seconds_between_monotone (now1 now2 t0 : Z) :
  (now1 <= now2)%Z -> seconds_between now1 t0 <= seconds_between now2 t0.
Proof.
  intros Hle. unfold seconds_between, Qdiv.
  apply Qmult_le_compat_r; [| discriminate].
  rewrite <- Zle_Qle. lia.
Qed.

Lemma light_tick_elapsed (e : Env) (s : Sys) (t0 : Z) :
  state (self s) = GREEN_LIGHT \/ state (self s) = RED_LIGHT ->
  game_start_time (self s) = Some t0 ->
  elapsed_time (self (after (main_loop e) s)) = seconds_between (clock_now e) t0.
Proof.
  destruct s as [n o]. cbn [self]. intros Hphase Hstart.
  unfold GREEN_LIGHT, RED_LIGHT in Hphase.
  tick_cases n;
    try (unfold GAME_OVER in *; destruct Hphase as [Hphase | Hphase];
         congruence).
  all: cbn [snd]; unfold timed_out, finished, eliminated, ticked, lit;
    cbn [self elapsed_time with_previous_detection with_player_moved
         with_game_result with_state with_elapsed_time with_light_end_time
         with_current_light_duration]; try congruence.
  destruct Hphase; contradiction.
Qed.

(** X18. The elapsed time a light tick stores depends only on the game start
    and on the tick's clock reading: of two light ticks with the same game
    start, the one with the later (or equal) clock reading stores the larger
    (or equal) elapsed time, whatever else the two nodes hold. *)
Theorem elapsed_time_follows_game_clock
    (e1 e2 : Env) (s1 s2 : Sys) (t0 : Z) :
  state (self s1) = GREEN_LIGHT \/ state (self s1) = RED_LIGHT ->
  state (self s2) = GREEN_LIGHT \/ state (self s2) = RED_LIGHT ->
  game_start_time (self s1) = Some t0 ->
  game_start_time (self s2) = Some t0 ->
  (clock_now e1 <= clock_now e2)%Z ->
  elapsed_time (self (after (main_loop e1) s1))
  <= elapsed_time (self (after (main_loop e2) s2)).
Proof.
  intros Hp1 Hp2 Hs1 Hs2 Hle.
  rewrite (light_tick_elapsed e1 s1 t0 Hp1 Hs1).
  rewrite (light_tick_elapsed e2 s2 t0 Hp2 Hs2).
  now apply seconds_between_monotone.
Qed.

Lemma movement_flag_ends_game_witness :
  crashed (deliver (run (map Detections [frame_of (person_at 100 100 50 80)])
                        (mkProc (mkSys red_node_moved []) None))
                   (tick_at 500000000 true)) = None /\
  state (node (deliver (run (map Detections [frame_of (person_at 100 100 50 80)])
                            (mkProc (mkSys red_node_moved []) None))
                       (tick_at 500000000 true))) = GAME_OVER /\
  game_result
    (node (deliver (run (map Detections [frame_of (person_at 100 100 50 80)])
                        (mkProc (mkSys red_node_moved []) None))
                   (tick_at 500000000 true))) = Some LOSE.
Proof.
  exact (movement_flag_ends_game (mkProc (mkSys red_node_moved []) None)
           [frame_of (person_at 100 100 50 80)] (mkEnv 500000000 500000000 true 0.5 2)
           0 eq_refl eq_refl eq_refl eq_refl eq_refl eq_refl).
Defined.

Lemma finish_flag_ends_game_witness :
  game_result
    (node (deliver (run (map Detections [frame_of (person_at 100 100 50 80)])
                        (mkProc (mkSys green_node_at_finish []) None))
                   (tick_at 500000000 true)))
  = Some (if Qle_bool (time_limit green_node_at_finish)
                      (seconds_between 500000000 0)
          then LOSE else WIN).
Proof.
  exact (proj2 (proj2
           (finish_flag_ends_game (mkProc (mkSys green_node_at_finish []) None)
              [frame_of (person_at 100 100 50 80)]
              (mkEnv 500000000 500000000 true 0.5 2)
              0 eq_refl eq_refl eq_refl eq_refl eq_refl))).
Defined.

Lemma elapsed_time_follows_game_clock_witness :
  elapsed_time (self (after (main_loop (mkEnv 100000000 100000000 true 0.5 2))
                            (mkSys green_node_running [])))
  <= elapsed_time (self (after (main_loop (mkEnv 700000000 700000000 true 0.5 2))
                               (mkSys red_node_running []))).
Proof.
  apply (elapsed_time_follows_game_clock _ _ _ _ 0).
  - left. reflexivity.
  - right. reflexivity.
  - reflexivity.
  - reflexivity.
  - discriminate.
Defined.

(** *** A light reaching its deadline *)

(** X19. A GREEN_LIGHT tick before the time limit, with the finish line not
    reached and the light's deadline passed, always enters RED_LIGHT: the
    previous detection is cleared, the movement flag is false, the game has
    no result yet, and RED_LIGHT is the last phase published. *)
Theorem green_deadline_enters_fresh_red
    (e : Env) (n : Node) (o : list Effect) (t0 t_end : Z) :
  state n = GREEN_LIGHT ->
  game_start_time n = Some t0 ->
  light_end_time n = Some t_end ->
  seconds_between (clock_now e) t0 < time_limit n ->
  player_reached_finish_line n = false ->
  (t_end <= clock_now e)%Z ->
  outcome (main_loop e) (mkSys n o) = Done tt /\
  state (self (after (main_loop e) (mkSys n o))) = RED_LIGHT /\
  previous_detection (self (after (main_loop e) (mkSys n o))) = None /\
  player_moved (self (after (main_loop e) (mkSys n o))) = false /\
  game_result (self (after (main_loop e) (mkSys n o))) = game_result n /\
  last_published (out (after (main_loop e) (mkSys n o))) = Some RED_LIGHT.
Proof.
  intros Hgreen Hstart Hend Hlimit Hflag Hdue.
  apply Qle_bool_false_iff in Hlimit. apply Z.leb_le in Hdue.
  unfold outcome, after. rewrite main_loop_eq, Hgreen.
  change (GREEN_LIGHT =? "INSTRUCTIONS")%string with false.
  change (GREEN_LIGHT =? "COUNTDOWN")%string with false.
  change (GREEN_LIGHT =? "INIT")%string with false.
  change (GREEN_LIGHT =? GREEN_LIGHT)%string with true. cbv iota.
  rewrite green_light_state_eq, Hstart, Hlimit, Hflag.
  rewrite check_light_deadline_eq.
  cbn [ticked with_elapsed_time light_end_time]. rewrite Hend, Hdue.
  rewrite start_random_light_eq. cbn [state ticked with_elapsed_time].
  rewrite Hgreen.
  change (GREEN_LIGHT =? GREEN_LIGHT)%string with true. cbv iota.
  rewrite start_red_light_eq. cbn [fst snd self out].
  repeat split. now rewrite last_published_app.
Qed.

Lemma green_deadline_enters_fresh_red_witness :
  state (self (after (main_loop (mkEnv 1000000000 1000000000 true 0.5 2))
                     (mkSys green_node_running []))) = RED_LIGHT.
Proof.
  apply (green_deadline_enters_fresh_red
           (mkEnv 1000000000 1000000000 true 0.5 2) green_node_running []
           0 1000000000); reflexivity.
Defined.

(** X20. A RED_LIGHT tick before the time limit, with no movement seen and
    the light's deadline passed, moves to the light the coin picks and
    publishes it; a new red light clears the stored previous detection, a
    green light keeps it, and the movement flag stays false. *)
Theorem red_deadline_follows_coin
    (e : Env) (n : Node) (o : list Effect) (t0 t_end : Z) :
  state n = RED_LIGHT ->
  game_start_time n = Some t0 ->
  light_end_time n = Some t_end ->
  seconds_between (clock_now e) t0 < time_limit n ->
  player_moved n = false ->
  (t_end <= clock_now e)%Z ->
  outcome (main_loop e) (mkSys n o) = Done tt /\
  state (self (after (main_loop e) (mkSys n o)))
  = (if coin e then GREEN_LIGHT else RED_LIGHT) /\
  previous_detection (self (after (main_loop e) (mkSys n o)))
  = (if coin e then previous_detection n else None) /\
  player_moved (self (after (main_loop e) (mkSys n o))) = false /\
  last_published (out (after (main_loop e) (mkSys n o)))
  = Some (if coin e then GREEN_LIGHT else RED_LIGHT).
Proof.
  intros Hred Hstart Hend Hlimit Hmoved Hdue.
  apply Qle_bool_false_iff in Hlimit. apply Z.leb_le in Hdue.
  unfold outcome, after. rewrite main_loop_eq, Hred.
  change (RED_LIGHT =? "INSTRUCTIONS")%string with false.
  change (RED_LIGHT =? "COUNTDOWN")%string with false.
  change (RED_LIGHT =? "INIT")%string with false.
  change (RED_LIGHT =? GREEN_LIGHT)%string with false.
  change (RED_LIGHT =? RED_LIGHT)%string with true. cbv iota.
  rewrite red_light_state_eq, Hstart, Hlimit, Hmoved.
  rewrite check_light_deadline_eq.
  cbn [ticked with_elapsed_time light_end_time]. rewrite Hend, Hdue.
  rewrite start_random_light_eq. cbn [state ticked with_elapsed_time].
  rewrite Hred.
  change (RED_LIGHT =? GREEN_LIGHT)%string with false. cbv iota.
  destruct (coin e); light_eqs; cbn [fst snd self out];
    rewrite last_published_app; repeat split; exact Hmoved.
Qed.

Lemma red_deadline_follows_coin_witness :
  previous_detection
    (self (after (main_loop (mkEnv 1000000000 1000000000 true 0.5 2))
                 (mkSys red_node_running [])))
  = Some (person_at 100 100 50 80).
Proof.
  apply (proj1 (proj2 (proj2
           (red_deadline_follows_coin
              (mkEnv 1000000000 1000000000 true 0.5 2) red_node_running []
              0 1000000000 eq_refl eq_refl eq_refl eq_refl eq_refl
              (Z.le_refl _))))).
Defined.

(** *** Movement is judged frame to frame *)

Lemma steady_frames_keep_still
    (frames : list Detection2DArray) (ds : list Detection2D) :
  Forall2 selects frames ds ->
  forall n o,
    state n = RED_LIGHT ->
    player_moved n = false ->
    steady (movement_threshold n) (previous_detection n) ds = true ->
    player_moved
      (node (run (map Detections frames) (mkProc (mkSys n o) None))) = false.
Proof.
  induction 1 as [| msg d frames ds [Hseen Hsel] _ IH];
    intros n o Hred Hstill Hsteady; [exact Hstill |].
  change (run (map Detections (msg :: frames)) (mkProc (mkSys n o) None))
    with (run (map Detections frames)
            (deliver (mkProc (mkSys n o) None) (Detections msg))).
  rewrite deliver_frame by reflexivity. cbn [sys].
  unfold after. rewrite detection_callback_eq, Hseen, Hsel. cbn [snd].
  cbn [steady] in Hsteady. apply andb_true_iff in Hsteady.
  destruct Hsteady as [Hpair Hrest]. apply negb_true_iff in Hpair.
  assert (Hquiet : movement_seen n d = false).
  { unfold movement_seen. rewrite Hred.
    destruct (previous_detection n); [rewrite Hpair |]; reflexivity. }
  destruct (ingested d n o) as [n1 o1] eqn:Hing.
  assert (Hn1 : n1 = self (ingested d n o)) by now rewrite Hing.
  apply IH.
  - rewrite Hn1, ingested_state. exact Hred.
  - rewrite Hn1, ingested_player_moved, Hquiet, Hstill. reflexivity.
  - rewrite Hn1, ingested_movement_threshold, ingested_previous. exact Hrest.
Qed.

(** X21. Movement is judged against the previous frame only: in RED_LIGHT
    with the flag unset, a run of frames whose selected detections each stay
    within the threshold of the one before never sets the movement flag,
    however far the last one is from the first. *)
Theorem slow_drift_is_not_movement
    (p : Proc) (frames : list Detection2DArray) (ds : list Detection2D) :
  crashed p = None ->
  state (node p) = RED_LIGHT ->
  player_moved (node p) = false ->
  Forall2 selects frames ds ->
  steady (movement_threshold (node p)) (previous_detection (node p)) ds = true ->
  player_moved (node (run (map Detections frames) p)) = false.
Proof.
  intros Halive Hred Hstill Hsel Hsteady.
  destruct p as [[n o] c]. cbn [crashed] in Halive. subst c.
  now apply steady_frames_keep_still with (ds := ds).
Qed.

Lemma slow_drift_is_not_movement_witness :
  exceeds 10 (person_at 100 100 50 80) (person_at 124 100 50 80) = true /\
  player_moved
    (node (run (map Detections (map frame_of drifting))
               (mkProc (mkSys (with_state RED_LIGHT init_node) []) None)))
  = false.
Proof.
  split; [reflexivity |].
  apply (slow_drift_is_not_movement
           (mkProc (mkSys (with_state RED_LIGHT init_node) []) None)
           (map frame_of drifting) drifting eq_refl eq_refl eq_refl).
  - repeat constructor.
  - reflexivity.
Defined.

(** X22. Outside RED_LIGHT [detection_callback] never changes the movement
    flag, whatever the frame and the stored previous detection. *)
Theorem movement_only_checked_in_red (msg : Detection2DArray) (s : Sys) :
  state (self s) <> RED_LIGHT ->
  player_moved (self (after (detection_callback msg) s)) = player_moved (self s).
Proof.
  destruct s as [n o]. cbn [self]. intros Hne. unfold after.
  rewrite detection_callback_eq.
  destruct (person_detected (scan_frame msg)); [| reflexivity].
  destruct (detection (scan_frame msg)) as [curr |]; [| reflexivity].
  cbn [snd]. rewrite ingested_player_moved. unfold movement_seen.
  destruct (String.eqb_spec (state n) RED_LIGHT); [contradiction |].
  reflexivity.
Qed.

Lemma movement_only_checked_in_red_witness :
  player_moved
    (self (after (detection_callback (frame_of (person_at 300 100 50 95)))
                 (mkSys (with_previous_detection (Some (person_at 100 100 50 80))
                           (with_state GREEN_LIGHT init_node)) [])))
  = false.
Proof.
  apply (movement_only_checked_in_red
           (frame_of (person_at 300 100 50 95))
           (mkSys (with_previous_detection (Some (person_at 100 100 50 80))
                     (with_state GREEN_LIGHT init_node)) [])).
  discriminate.
Defined.

(** *** The end of the game *)

Lemma main_loop_timer (e : Env) (n : Node) (o : list Effect) :
  timer_cancelled n = false ->
  timer_cancelled (self (after (main_loop e) (mkSys n o))) = true ->
  state (self (after (main_loop e) (mkSys n o))) = GAME_OVER.
Proof.
  intros Htimer. tick_cases n; cbn [snd];
    unfold timed_out, finished, eliminated, ticked, lit;
    cbn [self state timer_cancelled with_previous_detection with_player_moved
         with_game_result with_state with_elapsed_time with_light_end_time
         with_current_light_duration with_game_start_time
         with_timer_cancelled];
    intros H; first [assumption | reflexivity | congruence].
Qed.

Lemma deliver_timer_only_at_game_over (p : Proc) (ev : Event) :
  (timer_cancelled (node p) = true -> state (node p) = GAME_OVER) ->
  timer_cancelled (node (deliver p ev)) = true ->
  state (node (deliver p ev)) = GAME_OVER.
Proof.
  intros Hinv. unfold deliver. destruct (crashed p); [exact Hinv |].
  destruct ev as [e | msg].
  - destruct (timer_cancelled (node p)) eqn:Htimer;
      [intros _; now apply Hinv |].
    rewrite node_exec. unfold node in Htimer. destruct (sys p) as [n o].
    now apply main_loop_timer.
  - rewrite node_exec, detection_callback_timer, detection_callback_state.
    exact Hinv.
Qed.

(** X23. In every process reachable from start-up the timer is cancelled only
    in GAME_OVER; and when the phase is GAME_OVER the next tick leaves the
    timer cancelled, after which a further tick changes nothing. *)
Theorem game_over_report_closes_the_game (evs : list Event) (e : Env) :
  (timer_cancelled (node (run evs boot)) = true ->
   state (node (run evs boot)) = GAME_OVER) /\
  (state (node (run evs boot)) = GAME_OVER ->
   timer_cancelled (node (deliver (run evs boot) (Tick e))) = true /\
   deliver (deliver (run evs boot) (Tick e)) (Tick e)
   = deliver (run evs boot) (Tick e)).
Proof.
  split.
  - assert (H : forall p,
               (timer_cancelled (node p) = true -> state (node p) = GAME_OVER) ->
               timer_cancelled (node (run evs p)) = true ->
               state (node (run evs p)) = GAME_OVER).
    { induction evs as [| ev evs IH]; intros p Hinv; [exact Hinv |].
      cbn [run fold_left]. apply IH.
      now apply deliver_timer_only_at_game_over. }
    apply (H boot). discriminate.
  - intros Hover.
    destruct (sound_run evs boot sound_boot)
      as (Halive & _ & _ & _ & Hset & _).
    set (p := run evs boot) in *.
    assert (Hcancelled :
              timer_cancelled (node (deliver p (Tick e))) = true).
    { unfold deliver. rewrite Halive.
      destruct (timer_cancelled (node p)) eqn:Htimer; [exact Htimer |].
      rewrite node_exec. unfold node in *. destruct (sys p) as [n o].
      cbn [self] in *. unfold after. rewrite main_loop_eq, Hover.
      change (GAME_OVER =? "INSTRUCTIONS")%string with false.
      change (GAME_OVER =? "COUNTDOWN")%string with false.
      change (GAME_OVER =? "INIT")%string with false.
      change (GAME_OVER =? GREEN_LIGHT)%string with false.
      change (GAME_OVER =? RED_LIGHT)%string with false.
      change (GAME_OVER =? GAME_OVER)%string with true. cbv iota.
      rewrite game_over_state_eq.
      destruct (Hset Hover) as [H | H]; rewrite H; reflexivity. }
    split; [exact Hcancelled |].
    unfold deliver at 1. rewrite Hcancelled.
    now destruct (crashed (deliver p (Tick e))).
Qed.

Lemma game_over_report_closes_the_game_witness :
  timer_cancelled
    (node (deliver
             (run [tick_at 0 true; tick_at 100000000 true;
                   tick_at 200000000 true;
                   Detections (frame_of (person_at 100 100 200 450));
                   tick_at 300000000 true] boot)
             (Tick (mkEnv 400000000 400000000 true 0.5 2))))
  = true.
Proof.
  apply (proj2 (game_over_report_closes_the_game
                  [tick_at 0 true; tick_at 100000000 true;
                   tick_at 200000000 true;
                   Detections (frame_of (person_at 100 100 200 450));
                   tick_at 300000000 true]
                  (mkEnv 400000000 400000000 true 0.5 2))).
  vm_compute. reflexivity.
Defined.

(** *** A person frame sets the baseline *)

(** X24. The converse of C7's bound: in every process reachable from start-up,
    once a frame holding a class "15" detection of strictly positive height
    has arrived since the most recent entry into RED_LIGHT (since start-up
    when there was none), a previous detection is stored. *)
Theorem person_since_red_is_stored (evs : list Event) :
  (0 < people_since_red evs boot 0)%nat ->
  exists d, previous_detection (node (run evs boot)) = Some d.
Proof.
  intros Hcount.
  apply (run_previous_tracks evs boot 0 boot_previous_tracks) in Hcount.
  destruct (previous_detection (node (run evs boot))) as [d |];
    [now exists d | now destruct Hcount].
Qed.

Lemma person_since_red_is_stored_witness :
  exists d,
    previous_detection
      (node (run [tick_at 0 true; tick_at 100000000 true;
                  tick_at 200000000 false;
                  Detections (frame_of (person_at 100 100 50 80))] boot))
    = Some d.
Proof.
  apply (person_since_red_is_stored
           [tick_at 0 true; tick_at 100000000 true; tick_at 200000000 false;
            Detections (frame_of (person_at 100 100 50 80))]).
  vm_compute. apply le_n.
Defined.


(** * The tracker over IEEE doubles *)

Module DoubleFacts.
Import PrimFloat SpecFloat FloatOps FloatAxioms.
Import Double.

#[local] Set Warnings "-inexact-float".

(** *** Subtracting a double from itself *)

Lemma finite_shape (v : float) :
  is_finite v = true ->
  (exists s, Prim2SF v = S754_zero s)
  \/ (exists s m e, Prim2SF v = S754_finite s m e).
Proof.
  unfold is_finite. rewrite negb_true_iff, orb_false_iff. intros [Hnan Hinf].
  unfold Prim2SF. rewrite Hnan, Hinf.
  destruct (is_zero v); [left; eauto |].
  destruct (Z.frexp v) as [r ex].
  destruct (shr_fexp prec emax _ _ _) as [shr e'].
  destruct (shr_m shr); [left | right | left]; eauto.
Qed.

Lemma sub_self_shape (v : float) :
  Prim2SF (v - v)%float = S754_zero false \/ Prim2SF (v - v)%float = S754_nan.
Proof.
  rewrite sub_spec. unfold SF64sub.
  destruct (Prim2SF v) as [s | s | | s m e]; cbn [SFsub].
  - left. now destruct s.
  - right. now destruct s.
  - now right.
  - left.
    match goal with
    | |- binary_normalize _ _ ?t _ _ = _ => replace t with 0%Z
    end; [reflexivity | symmetry; apply Z.sub_diag].
Qed.

Lemma sub_self_finite (v : float) :
  is_finite v = true -> (v - v)%float = 0%float.
Proof.
  intros Hfin. apply Prim2SF_inj. rewrite sub_spec. unfold SF64sub.
  destruct (finite_shape v Hfin) as [[s ->] | (s & m & e & ->)]; cbn [SFsub].
  - now destruct s.
  - match goal with
    | |- binary_normalize _ _ ?t _ _ = _ => replace t with 0%Z
    end; [reflexivity | symmetry; apply Z.sub_diag].
Qed.

Lemma abs_sub_self_finite (v : float) :
  is_finite v = true -> abs (v - v) = 0%float.
Proof. intros Hfin. now rewrite sub_self_finite. Qed.

Lemma ltb_abs_sub_self (threshold v : float) :
  (0 <=? threshold)%float = true ->
  (threshold <? abs (v - v))%float = false.
Proof.
  rewrite leb_spec, ltb_spec, abs_spec. intros Hle.
  destruct (sub_self_shape v) as [-> | ->]; cbn [SFabs].
  - change (Prim2SF 0) with (S754_zero false) in Hle.
    unfold SFleb, SFltb in *.
    destruct (Prim2SF threshold) as [s | s | | s m e]; cbn in *;
      try destruct s; try reflexivity; discriminate.
  - unfold SFltb. destruct (Prim2SF threshold); reflexivity.
Qed.

(** *** Closed forms of the two methods *)

Lemma detect_movement_f64 (prev curr : Detection2D) (n : Node)
    (o : list Effect) :
  detect_movement prev curr (mkSys n o)
  = if exceeds (movement_threshold n) prev curr then
      (Done true,
       mkSys n (o ++ [LogMovementDetected
                        (delta_x prev curr) (delta_y prev curr)
                        (delta_size_x prev curr) (delta_size_y prev curr)]))
    else (Done false, mkSys n o).
Proof.
  unfold detect_movement, exceeds, bind, gets. cbn [self].
  destruct ((movement_threshold n <? delta_x prev curr)%float
            || (movement_threshold n <? delta_y prev curr)%float
            || (movement_threshold n <? delta_size_x prev curr)%float
            || (movement_threshold n <? delta_size_y prev curr)%float);
    reflexivity.
Qed.

Lemma detection_callback_f64 (msg : Detection2DArray) (n : Node)
    (o : list Effect) :
  detection_callback msg (mkSys n o)
  = if person_detected (scan_frame msg) then
      match detection (scan_frame msg) with
      | Some curr => (Done tt, ingested curr n o)
      | None =>
          (Raise (AttributeError "bbox"), mkSys (with_current_detection None n) o)
      end
    else (Done tt, mkSys n o).
Proof.
  unfold detection_callback, when.
  destruct (person_detected (scan_frame msg)); [| reflexivity].
  destruct (detection (scan_frame msg)) as [curr |]; [| reflexivity].
  unfold ingested, movement_seen, bind, gets, assign, ret.
  cbn -[detect_movement exceeds leb].
  destruct (size_y_finish_line n <=? size_y (bbox curr))%float;
    cbn -[detect_movement exceeds];
    destruct (state n =? RED_LIGHT)%string; cbn -[detect_movement exceeds];
    destruct (previous_detection n) as [prev |]; cbn -[detect_movement exceeds];
    rewrite ?app_nil_r; try reflexivity;
    rewrite detect_movement_f64; cbn -[exceeds];
    destruct (exceeds (movement_threshold n) prev curr); cbn;
    rewrite ?app_nil_r; reflexivity.
Qed.

Lemma ingested_player_moved_f64 (curr : Detection2D) (n : Node)
    (o : list Effect) :
  player_moved (self (ingested curr n o))
  = movement_seen n curr || player_moved n.
Proof.
  unfold ingested.
  destruct (movement_seen n curr);
    destruct (size_y_finish_line n <=? size_y (bbox curr))%float;
    reflexivity.
Qed.

Lemma ingested_kept_f64 (curr : Detection2D) (n : Node) (o : list Effect) :
  state (self (ingested curr n o)) = state n /\
  movement_threshold (self (ingested curr n o)) = movement_threshold n /\
  previous_detection (self (ingested curr n o)) = Some curr.
Proof.
  unfold ingested.
  destruct (movement_seen n curr);
    destruct (size_y_finish_line n <=? size_y (bbox curr))%float;
    repeat split.
Qed.

(** C2. When a frame's selected detection [curr] is ingested in RED_LIGHT while
    a previous detection [prev] is stored, [detect_movement prev curr] answers
    true exactly when one of the four absolute deltas, computed in double
    arithmetic as [abs (curr - prev)] on centre x, centre y, size_x and
    size_y, is strictly above the movement threshold; in that case the
    movement flag becomes true, and otherwise it keeps its value. *)
Theorem movement_flagged_iff_delta_exceeds
    (n : Node) (o : list Effect) (msg : Detection2DArray)
    (prev curr : Detection2D) :
  state n = "RED_LIGHT"%string ->
  previous_detection n = Some prev ->
  person_detected (scan_frame msg) = true ->
  detection (scan_frame msg) = Some curr ->
  let threshold := movement_threshold n in
  let some_delta_exceeds :=
    (threshold <? abs (x (position (center (bbox curr)))
                       - x (position (center (bbox prev)))))%float = true \/
    (threshold <? abs (y (position (center (bbox curr)))
                       - y (position (center (bbox prev)))))%float = true \/
    (threshold <? abs (size_x (bbox curr) - size_x (bbox prev)))%float = true \/
    (threshold <? abs (size_y (bbox curr) - size_y (bbox prev)))%float = true in
  let n' := self (after (detection_callback msg) (mkSys n o)) in
  (outcome (detect_movement prev curr) (mkSys n o) = Done true
   <-> some_delta_exceeds) /\
  (some_delta_exceeds -> player_moved n' = true) /\
  (~ some_delta_exceeds -> player_moved n' = player_moved n).
Proof.
  intros Hred Hprev Hseen Hsel threshold some_delta_exceeds n'.
  assert (Hiff : exceeds threshold prev curr = true <-> some_delta_exceeds).
  { unfold exceeds, some_delta_exceeds, delta_x, delta_y, delta_size_x,
      delta_size_y. rewrite !orb_true_iff. tauto. }
  assert (Hmoved : player_moved n'
                   = exceeds threshold prev curr || player_moved n).
  { unfold n', after. rewrite detection_callback_f64, Hseen, Hsel.
    cbn [snd]. rewrite ingested_player_moved_f64.
    unfold movement_seen. rewrite Hred, Hprev. reflexivity. }
  split; [| split].
  - unfold outcome. rewrite detect_movement_f64. fold threshold.
    destruct (exceeds threshold prev curr); cbn [fst].
    + split; [intros _; now apply Hiff | reflexivity].
    + split; [discriminate | intros H; apply Hiff in H; discriminate H].
  - intros H. apply Hiff in H. rewrite Hmoved, H. reflexivity.
  - intros H. rewrite Hmoved.
    destruct (exceeds threshold prev curr); [| reflexivity].
    exfalso. apply H, Hiff. reflexivity.
Qed.

Ltac no_delta_exceeds :=
  let H := fresh in
  intros [H | [H | [H | H]]]; vm_compute in H; discriminate H.

Lemma movement_flagged_iff_delta_exceeds_witness :
  (* centre x alone moves by 11 *)
  player_moved
    (self (after (detection_callback (frame_of (person_at 111 100 50 80)))
                 (red_watching (person_at 100 100 50 80)))) = true
  (* centre y alone moves by 11 *)
  /\ player_moved
       (self (after (detection_callback (frame_of (person_at 100 89 50 80)))
                    (red_watching (person_at 100 100 50 80)))) = true
  (* size_x alone changes by 11 *)
  /\ player_moved
       (self (after (detection_callback (frame_of (person_at 100 100 61 80)))
                    (red_watching (person_at 100 100 50 80)))) = true
  (* size_y alone changes by 15 *)
  /\ player_moved
       (self (after (detection_callback (frame_of (person_at 100 100 50 95)))
                    (red_watching (person_at 100 100 50 80)))) = true
  (* every delta is exactly the threshold 10 *)
  /\ player_moved
       (self (after (detection_callback (frame_of (person_at 110 90 60 70)))
                    (red_watching (person_at 100 100 50 80)))) = false
  (* the doubles 0.3 and 10.3 are exactly 10.0 apart *)
  /\ player_moved
       (self (after (detection_callback (frame_of (person_at 10.3 100 50 80)))
                    (red_watching (person_at 0.3 100 50 80)))) = false
  (* the doubles 6.1 and 16.1 are more than 10.0 apart *)
  /\ player_moved
       (self (after (detection_callback (frame_of (person_at 16.1 100 50 80)))
                    (red_watching (person_at 6.1 100 50 80)))) = true.
Proof.
  split; [| split; [| split; [| split; [| split; [| split]]]]].
  - apply (proj1 (proj2 (movement_flagged_iff_delta_exceeds
             (red_node_watching (person_at 100 100 50 80)) []
             (frame_of (person_at 111 100 50 80)) (person_at 100 100 50 80)
             (person_at 111 100 50 80) eq_refl eq_refl eq_refl eq_refl))).
    left. reflexivity.
  - apply (proj1 (proj2 (movement_flagged_iff_delta_exceeds
             (red_node_watching (person_at 100 100 50 80)) []
             (frame_of (person_at 100 89 50 80)) (person_at 100 100 50 80)
             (person_at 100 89 50 80) eq_refl eq_refl eq_refl eq_refl))).
    right; left. reflexivity.
  - apply (proj1 (proj2 (movement_flagged_iff_delta_exceeds
             (red_node_watching (person_at 100 100 50 80)) []
             (frame_of (person_at 100 100 61 80)) (person_at 100 100 50 80)
             (person_at 100 100 61 80) eq_refl eq_refl eq_refl eq_refl))).
    right; right; left. reflexivity.
  - apply (proj1 (proj2 (movement_flagged_iff_delta_exceeds
             (red_node_watching (person_at 100 100 50 80)) []
             (frame_of (person_at 100 100 50 95)) (person_at 100 100 50 80)
             (person_at 100 100 50 95) eq_refl eq_refl eq_refl eq_refl))).
    right; right; right. reflexivity.
  - apply (proj2 (proj2 (movement_flagged_iff_delta_exceeds
             (red_node_watching (person_at 100 100 50 80)) []
             (frame_of (person_at 110 90 60 70)) (person_at 100 100 50 80)
             (person_at 110 90 60 70) eq_refl eq_refl eq_refl eq_refl))).
    no_delta_exceeds.
  - apply (proj2 (proj2 (movement_flagged_iff_delta_exceeds
             (red_node_watching (person_at 0.3 100 50 80)) []
             (frame_of (person_at 10.3 100 50 80)) (person_at 0.3 100 50 80)
             (person_at 10.3 100 50 80) eq_refl eq_refl eq_refl eq_refl))).
    no_delta_exceeds.
  - apply (proj1 (proj2 (movement_flagged_iff_delta_exceeds
             (red_node_watching (person_at 6.1 100 50 80)) []
             (frame_of (person_at 16.1 100 50 80)) (person_at 6.1 100 50 80)
             (person_at 16.1 100 50 80) eq_refl eq_refl eq_refl eq_refl))).
    left. reflexivity.
Defined.

Lemma exceeds_self_f64 (threshold : float) (d : Detection2D) :
  (0 <=? threshold)%float = true -> exceeds threshold d d = false.
Proof.
  intros Hthr. unfold exceeds, delta_x, delta_y, delta_size_x, delta_size_y.
  now rewrite !ltb_abs_sub_self by exact Hthr.
Qed.

(** C8 (as the code has it). With a threshold [>= 0], ingesting in RED_LIGHT a
    frame whose selected detection is [d] twice in a row makes the second
    ingest compare [d] with itself.  Whatever the box of [d] holds,
    [detect_movement d d] answers false and the second ingest leaves the
    movement flag as the first one left it.  When the four box fields of [d]
    are finite doubles the four deltas are zero. *)
Theorem same_detection_twice_never_flags
    (n : Node) (o : list Effect) (msg : Detection2DArray) (d : Detection2D) :
  state n = "RED_LIGHT"%string ->
  (0 <=? movement_threshold n)%float = true ->
  person_detected (scan_frame msg) = true ->
  detection (scan_frame msg) = Some d ->
  let s1 := after (detection_callback msg) (mkSys n o) in
  let s2 := after (detection_callback msg) s1 in
  state (self s1) = "RED_LIGHT"%string /\
  previous_detection (self s1) = Some d /\
  outcome (detect_movement d d) s1 = Done false /\
  player_moved (self s2) = player_moved (self s1) /\
  (finite_box d = true ->
   abs (x (position (center (bbox d))) - x (position (center (bbox d))))
   = 0%float /\
   abs (y (position (center (bbox d))) - y (position (center (bbox d))))
   = 0%float /\
   abs (size_x (bbox d) - size_x (bbox d)) = 0%float /\
   abs (size_y (bbox d) - size_y (bbox d)) = 0%float).
Proof.
  intros Hred Hthr Hseen Hsel s1 s2.
  assert (Hs1 : s1 = ingested d n o).
  { unfold s1, after. now rewrite detection_callback_f64, Hseen, Hsel. }
  destruct (ingested_kept_f64 d n o) as (Hst & Hthr1 & Hprev1).
  rewrite <- Hs1 in Hst, Hthr1, Hprev1.
  split; [now rewrite Hst |]. split; [exact Hprev1 |].
  destruct s1 as [n1 o1]. cbn [self] in *.
  split; [| split].
  - unfold outcome.
    rewrite detect_movement_f64, Hthr1, exceeds_self_f64 by exact Hthr.
    reflexivity.
  - unfold s2, after. rewrite detection_callback_f64, Hseen, Hsel.
    cbn [snd self]. rewrite ingested_player_moved_f64. unfold movement_seen.
    rewrite Hprev1, Hthr1, exceeds_self_f64 by exact Hthr.
    now rewrite andb_false_r.
  - unfold finite_box. rewrite !andb_true_iff.
    intros [[[Hx Hy] Hsx] Hsy].
    now rewrite !abs_sub_self_finite by assumption.
Qed.

Lemma same_detection_twice_never_flags_witness :
  player_moved
    (self (after (detection_callback (frame_of (person_at 100 100 50 80)))
             (after (detection_callback (frame_of (person_at 100 100 50 80)))
                (red_watching (person_at 60 100 50 80)))))
  = player_moved
      (self (after (detection_callback (frame_of (person_at 100 100 50 80)))
               (red_watching (person_at 60 100 50 80))))
  /\ abs (x (position (center (bbox (person_at 100 100 50 80))))
          - x (position (center (bbox (person_at 100 100 50 80))))) = 0%float.
Proof.
  split.
  - apply (proj1 (proj2 (proj2 (proj2
             (same_detection_twice_never_flags
                (red_node_watching (person_at 60 100 50 80)) []
                (frame_of (person_at 100 100 50 80)) (person_at 100 100 50 80)
                eq_refl eq_refl eq_refl eq_refl))))).
  - apply (proj2 (proj2 (proj2 (proj2
             (same_detection_twice_never_flags
                (red_node_watching (person_at 60 100 50 80)) []
                (frame_of (person_at 100 100 50 80)) (person_at 100 100 50 80)
                eq_refl eq_refl eq_refl eq_refl))))).
    reflexivity.
Defined.

(** C8, counterexample to "four deltas equal to zero for every detection": a
    person whose box centre has an infinite abscissa is selected by the scan
    and stored by the first ingest; on the second ingest [abs (inf - inf)] is
    NaN, which is not zero (and not above the threshold either). *)
Lemma same_detection_twice_nan_delta :
  person_detected (scan_frame (frame_of far_away)) = true
  /\ detection (scan_frame (frame_of far_away)) = Some far_away
  /\ previous_detection
       (self (after (detection_callback (frame_of far_away))
                    (mkSys (with_state RED_LIGHT init_node) [])))
     = Some far_away
  /\ is_nan (delta_x far_away far_away) = true
  /\ (delta_x far_away far_away =? 0)%float = false
  /\ outcome (detect_movement far_away far_away)
       (after (detection_callback (frame_of far_away))
              (mkSys (with_state RED_LIGHT init_node) []))
     = Done false.
Proof. vm_compute. repeat split. Qed.

End DoubleFacts.
